(** * github_sync: a shallow embedding of [lambda/github_sync.py]

    The module synchronises a user's GitHub repositories into a JSON object
    stored in S3.  It has five functions -- [_load_token], [_github_request],
    [_transform_repo], [build_payload] / [put_to_s3] and [lambda_handler] --
    and one piece of module-level state, [_cached_secret].

    Python values are embedded as the inductive type [pyval]; a [str] is a
    [string] whose characters are read as code points (below 256); a [dict]
    is an association list in insertion order with [str] keys.  Exceptions
    are values of [exn], and effectful functions live in a state-and-error
    monad over the record [world], which holds the module global and a log
    of every call made to an external service.  The services themselves
    (Secrets Manager, urllib, the clock, the [json] module, S3) are the
    fields of the class [Services]. *)

From Stdlib Require Import String Ascii List ZArith NArith Bool Lia.
From Stdlib Require Import Permutation Sorted DecimalString DecimalN DecimalPos.
From Stdlib Require Import OrderedTypeEx.
Import ListNotations.
Local Open Scope string_scope.
Local Open Scope list_scope.

Set Implicit Arguments.
Set Warnings "-register-all".

(* ================================================================== *)
(** ** Python values *)

Inductive pyval : Type :=
| VNone
| VBool (b : bool)
| VInt (z : Z)
| VStr (s : string)
| VList (items : list pyval)
| VDict (items : list (string * pyval)).

(** A [dict] keeps its items in insertion order. *)
Definition dict := list (string * pyval).

(** Python exceptions raised by the module or by what it calls. *)
Inductive exn : Type :=
| RuntimeError (msg : string)
| KeyError (key : string)
| ValueError (msg : string)
| TypeError (msg : string)
| AttributeError (msg : string)
| JSONDecodeError
| ClientError (msg : string)
| TimeoutError
| RemoteDisconnected
| IncompleteRead
| UnicodeDecodeError
| LookupError (msg : string).

Inductive result (A : Type) : Type :=
| Ok (a : A)
| Raise (e : exn).
Arguments Ok {A} a.
Arguments Raise {A} e.

Definition rbind {A B} (r : result A) (k : A -> result B) : result B :=
  match r with
  | Ok a => k a
  | Raise e => Raise e
  end.

Declare Scope result_scope.
Delimit Scope result_scope with res.
Notation "x <- r ;; k" := (rbind r (fun x => k))
  (at level 61, r at next level, right associativity) : result_scope.

(* ------------------------------------------------------------------ *)
(** *** [str] *)

(** [str.isspace] on one character: the code points below 256 that CPython
    classifies as whitespace. *)
Definition isspace (c : ascii) : bool :=
  let n := N_of_ascii c in
  ((9 <=? n) && (n <=? 13) || (28 <=? n) && (n <=? 32)
   || (n =? 133) || (n =? 160))%N.

Fixpoint lstrip (s : string) : string :=
  match s with
  | String c r => if isspace c then lstrip r else s
  | EmptyString => EmptyString
  end.

Fixpoint rstrip (s : string) : string :=
  match s with
  | EmptyString => EmptyString
  | String c r =>
      match rstrip r with
      | EmptyString => if isspace c then EmptyString else String c EmptyString
      | r' => String c r'
      end
  end.

(** [s.strip()] *)
Definition strip (s : string) : string := rstrip (lstrip s).

(** Truth value of a [str]: [bool(s)]. *)
Definition str_truthy (s : string) : bool :=
  match s with
  | EmptyString => false
  | String _ _ => true
  end.

(** [s.startswith(p)] *)
Definition startswith (s p : string) : bool := prefix p s.

(* ------------------------------------------------------------------ *)
(** *** [dict] *)

(** [d.get(key)], with [None] standing for Python's [None] default. *)
Fixpoint dict_lookup (key : string) (d : dict) : option pyval :=
  match d with
  | [] => None
  | (k, v) :: rest => if String.eqb k key then Some v else dict_lookup key rest
  end.

(** [d.get(key)] *)
Definition dict_get (d : dict) (key : string) : pyval :=
  match dict_lookup key d with
  | Some v => v
  | None => VNone
  end.

(** [d.get(key, default)] *)
Definition dict_get_default (d : dict) (key : string) (default : pyval) : pyval :=
  match dict_lookup key d with
  | Some v => v
  | None => default
  end.

(** [d.values()] *)
Definition dict_values (d : dict) : list pyval := map snd d.

(** [d[key] = v]: an existing key keeps its position. *)
Fixpoint dict_set (key : string) (v : pyval) (d : dict) : dict :=
  match d with
  | [] => [(key, v)]
  | (k, v0) :: rest =>
      if String.eqb k key then (k, v) :: rest else (k, v0) :: dict_set key v rest
  end.

(** [item.get(key, default)] where [item] is any value: only a [dict] has
    the method. *)
Definition py_get_default (item : pyval) (key : string) (default : pyval)
  : result pyval :=
  match item with
  | VDict d => Ok (dict_get_default d key default)
  | _ => Raise (AttributeError "object has no attribute 'get'")
  end.

Definition py_get (item : pyval) (key : string) : result pyval :=
  py_get_default item key VNone.

(* ------------------------------------------------------------------ *)
(** *** Comparison of values: [==] and [<] *)

Definition as_int (v : pyval) : option Z :=
  match v with
  | VBool b => Some (if b then 1 else 0)%Z
  | VInt z => Some z
  | _ => None
  end.

(** [a == b].  [bool] is a subtype of [int]; two dicts are equal when they
    hold the same keys with equal values, whatever the order. *)
Fixpoint py_eq (a b : pyval) {struct a} : bool :=
  match a, b with
  | VNone, VNone => true
  | VStr s, VStr t => String.eqb s t
  | VList l, VList m =>
      (fix go (l m : list pyval) {struct l} : bool :=
         match l, m with
         | [], [] => true
         | x :: l', y :: m' => py_eq x y && go l' m'
         | _, _ => false
         end) l m
  | VDict d, VDict e =>
      Nat.eqb (length d) (length e)
      && (fix go (d : list (string * pyval)) {struct d} : bool :=
            match d with
            | [] => true
            | (k, v) :: d' =>
                match dict_lookup k e with
                | Some w => py_eq v w && go d'
                | None => false
                end
            end) d
  | _, _ =>
      match as_int a, as_int b with
      | Some x, Some y => Z.eqb x y
      | _, _ => false
      end
  end.

Definition not_supported : exn :=
  TypeError "'<' not supported between instances".

(** [a < b].  Strings compare by code point, numbers numerically, lists
    lexicographically; every other pairing raises [TypeError], in
    particular any comparison with [None]. *)
Fixpoint py_lt (a b : pyval) {struct a} : result bool :=
  match a, b with
  | VStr s, VStr t => Ok (String.ltb s t)
  | VList l, VList m =>
      (fix go (l m : list pyval) {struct l} : result bool :=
         match l, m with
         | [], [] => Ok false
         | [], _ :: _ => Ok true
         | _ :: _, [] => Ok false
         | x :: l', y :: m' => if py_eq x y then go l' m' else py_lt x y
         end) l m
  | _, _ =>
      match as_int a, as_int b with
      | Some x, Some y => Ok (Z.ltb x y)
      | _, _ => Raise not_supported
      end
  end.

(* ------------------------------------------------------------------ *)
(** *** [sorted] and slicing *)

Section Sorting.
Variable A : Type.

(** One step of a stable insertion: [x] stood before every element of
    [s] in the input, so it goes in front of the first element that is
    not smaller than it. *)
Fixpoint insert (x : pyval * A) (s : list (pyval * A))
  : result (list (pyval * A)) :=
  match s with
  | [] => Ok [x]
  | y :: s' =>
      (b <- py_lt (fst y) (fst x) ;;
       if b then (r <- insert x s' ;; Ok (y :: r)) else Ok (x :: s))%res
  end.

Fixpoint sort_keyed (l : list (pyval * A)) : result (list (pyval * A)) :=
  match l with
  | [] => Ok []
  | x :: l' => (s <- sort_keyed l' ;; insert x s)%res
  end.

(** The decoration step: the key function is applied to every element,
    in order, before any comparison is made. *)
Fixpoint decorate (key : A -> result pyval) (l : list A)
  : result (list (pyval * A)) :=
  match l with
  | [] => Ok []
  | x :: l' =>
      (k <- key x ;; r <- decorate key l' ;; Ok ((k, x) :: r))%res
  end.

(** [sorted(l, key=key, reverse=reverse)].  As in CPython, a reversed
    sort reverses the list, sorts it ascending and stably with [<], and
    reverses the outcome, so equal keys keep their input order.  The sort
    raises what a comparison raises.  When no comparison raises, the
    outcome of a stable sort does not depend on which comparisons are
    made; when a key is [None] and there are two elements or more, every
    comparison sort compares it with something and raises, as this one
    does.  On keys that are partly comparable (nested lists of mixed
    types) the comparisons made by CPython's merge sort may differ from
    the ones made here. *)
Definition sorted (l : list A) (key : A -> result pyval) (reverse : bool)
  : result (list A) :=
  (keyed <- decorate key l ;;
   s <- sort_keyed (if reverse then rev keyed else keyed) ;;
   Ok (map snd (if reverse then rev s else s)))%res.

(** [l[:stop]]: a negative [stop] counts from the end. *)
Definition slice_to (l : list A) (stop : Z) : list A :=
  if (0 <=? stop)%Z then firstn (Z.to_nat stop) l
  else firstn (Z.to_nat (Z.of_nat (length l) + stop)) l.
End Sorting.

(* ------------------------------------------------------------------ *)
(** *** [int(s)] and [str(n)] *)

Definition digit_of (c : ascii) : option Z :=
  let n := N_of_ascii c in
  if ((48 <=? n) && (n <=? 57))%N then Some (Z.of_N n - 48)%Z else None.

(** Digits of a decimal literal, with single underscores allowed between
    digits.  [acc] is the value read so far, [after_digit] tells whether
    the previous character was a digit. *)
Fixpoint int_digits (s : string) (acc : Z) (after_digit : bool) : option Z :=
  match s with
  | EmptyString => if after_digit then Some acc else None
  | String c r =>
      match digit_of c with
      | Some d => int_digits r (10 * acc + d)%Z true
      | None =>
          if (Ascii.eqb c "_" && after_digit)%bool
          then match r with
               | EmptyString => None
               | String c' _ =>
                   match digit_of c' with
                   | Some _ => int_digits r acc false
                   | None => None
                   end
               end
          else None
      end
  end.

(** The whitespace that [int] skips around a literal: the ASCII blanks
    and, of the other code points below 256, the two that are spaces
    (U+0085, U+00A0).  The separators U+001C to U+001F, which [str.strip]
    removes, are not skipped. *)
Definition int_isspace (c : ascii) : bool :=
  let n := N_of_ascii c in
  ((9 <=? n) && (n <=? 13) || (n =? 32) || (n =? 133) || (n =? 160))%N.

Fixpoint int_lstrip (s : string) : string :=
  match s with
  | String c r => if int_isspace c then int_lstrip r else s
  | EmptyString => EmptyString
  end.

Fixpoint int_rstrip (s : string) : string :=
  match s with
  | EmptyString => EmptyString
  | String c r =>
      match int_rstrip r with
      | EmptyString =>
          if int_isspace c then EmptyString else String c EmptyString
      | r' => String c r'
      end
  end.

(** The number of digits of a literal, underscores left out. *)
Fixpoint count_digits (s : string) : N :=
  match s with
  | EmptyString => 0%N
  | String c r =>
      match digit_of c with
      | Some _ => N.succ (count_digits r)
      | None => count_digits r
      end
  end.

(** CPython's default for [sys.get_int_max_str_digits()]. *)
Definition int_max_str_digits : N := 4300.

(** [int(s)] in base 10: whitespace around, an optional sign, digits; a
    literal of more digits than the limit is refused. *)
Definition py_int (s : string) : result Z :=
  let body := int_rstrip (int_lstrip s) in
  let parsed :=
    match body with
    | String "-" r =>
        if (count_digits r <=? int_max_str_digits)%N
        then option_map Z.opp (int_digits r 0%Z false) else None
    | String "+" r =>
        if (count_digits r <=? int_max_str_digits)%N
        then int_digits r 0%Z false else None
    | _ =>
        if (count_digits body <=? int_max_str_digits)%N
        then int_digits body 0%Z false else None
    end in
  match parsed with
  | Some z => Ok z
  | None => Raise (ValueError "invalid literal for int() with base 10")
  end.

(** [str(n)] for a non-negative integer. *)
Definition str_of_N (n : N) : string := NilZero.string_of_uint (N.to_uint n).


(* ================================================================== *)
(** ** The process and the services around it *)

(** What [SECRETS_CLIENT.get_secret_value] does: it raises a botocore
    [ClientError], or it returns a response whose ["SecretString"] entry
    may be missing. *)
Inductive secrets_reply : Type :=
| SecretsRaise (msg : string)
| SecretsResponse (SecretString : option string).

(** What [request.urlopen] and the reading of the body come to, once
    urllib has followed redirects: a final response with its status and
    its decoded body; a [URLError] with its reason (the request could not
    be sent: name resolution, refused connection, TLS); or an exception
    that is neither [HTTPError] nor [URLError], raised while the response
    is awaited, read or decoded ([TimeoutError], [RemoteDisconnected],
    [IncompleteRead], [UnicodeDecodeError], [LookupError]). *)
Inductive http_final : Type :=
| FinalResponse (status : N) (text : string)
| URLFailure (reason : string)
| Interrupted (e : exn).

(** What happens inside the [try] of [_github_request]: a payload, an
    [HTTPError] with its status code and decoded body, a [URLError] with
    its reason, or another exception. *)
Inductive http_reply : Type :=
| HTTPResponse (payload : string)
| HTTPError (code : N) (body : string)
| URLError (reason : string)
| OtherException (e : exn).

(** urllib raises [HTTPError] for a final response outside 200-299. *)
Definition urlopen_outcome (r : http_final) : http_reply :=
  match r with
  | FinalResponse status text =>
      if ((200 <=? status) && (status <? 300))%N
      then HTTPResponse text else HTTPError status text
  | URLFailure reason => URLError reason
  | Interrupted e => OtherException e
  end.

Record http_request : Type := mkRequest {
  req_url : string;
  req_headers : list (string * string)
}.

(** The keyword arguments of [S3_CLIENT.put_object]. *)
Record put_request : Type := mkPut {
  Bucket : string;
  Key : string;
  Body : string;
  ContentType : string;
  CacheControl : string
}.

(** The external collaborators.  A service that may answer differently
    over time receives the number of calls made to it before. *)
Class Services : Type := {
  environ : string -> option string;
  get_secret_value : nat -> string -> secrets_reply;
  json_loads : string -> option pyval;
  json_dumps : pyval -> string;
  urlopen : nat -> http_request -> http_final;
  utcnow_isoformat : nat -> string;
  put_object : nat -> put_request -> option string
}.

(** State of one process: the module global [_cached_secret], and the
    trace of what the process did to the outside.  [cache_writes] counts
    the assignments to the global. *)
Record world : Type := mkWorld {
  _cached_secret : option string;
  cache_writes : nat;
  secrets_calls : list string;
  http_calls : list http_request;
  clock_reads : nat;
  s3_objects : list put_request
}.

(** A freshly imported module. *)
Definition initial_world : world :=
  mkWorld None 0 [] [] 0 [].

(** Computations that read and change the world and may raise. *)
Definition M (A : Type) : Type := world -> result A * world.

Definition ret {A} (a : A) : M A := fun w => (Ok a, w).

Definition raise {A} (e : exn) : M A := fun w => (Raise e, w).

Definition bind {A B} (m : M A) (k : A -> M B) : M B :=
  fun w =>
    match m w with
    | (Ok a, w') => k a w'
    | (Raise e, w') => (Raise e, w')
    end.

Definition lift {A} (r : result A) : M A := fun w => (r, w).

Declare Scope action_scope.
Delimit Scope action_scope with M.
Notation "x <- m ;; k" := (bind m (fun x => k))
  (at level 61, m at next level, right associativity) : action_scope.
Notation "m ;;; k" := (bind m (fun _ => k))
  (at level 61, right associativity) : action_scope.

Fixpoint mapM {A B} (f : A -> M B) (l : list A) : M (list B) :=
  match l with
  | [] => ret []
  | x :: l' => (y <- f x ;; ys <- mapM f l' ;; ret (y :: ys))%M
  end.

(* ================================================================== *)
(** ** The module [github_sync] *)

Section GithubSync.
Context {svc : Services}.
Local Open Scope action_scope.

(** *** Primitive actions *)

(** [SECRETS_CLIENT.get_secret_value(SecretId=secret_arn)] *)
Definition call_get_secret_value (secret_arn : string) : M (option string) :=
  fun w =>
    let w' := mkWorld (_cached_secret w) (cache_writes w)
                      (secrets_calls w ++ [secret_arn]) (http_calls w)
                      (clock_reads w) (s3_objects w) in
    match get_secret_value (length (secrets_calls w)) secret_arn with
    | SecretsRaise msg => (Raise (ClientError msg), w')
    | SecretsResponse secret_string => (Ok secret_string, w')
    end.

(** [_cached_secret = v] *)
Definition set_cached_secret (v : string) : M unit :=
  fun w =>
    (Ok tt, mkWorld (Some v) (S (cache_writes w)) (secrets_calls w)
                    (http_calls w) (clock_reads w) (s3_objects w)).

Definition get_cached_secret : M (option string) :=
  fun w => (Ok (_cached_secret w), w).

(** [request.urlopen(req, timeout=10)] followed by reading and decoding
    the body. *)
Definition call_urlopen (req : http_request) : M http_reply :=
  fun w =>
    (Ok (urlopen_outcome (urlopen (length (http_calls w)) req)),
     mkWorld (_cached_secret w) (cache_writes w) (secrets_calls w)
             (http_calls w ++ [req]) (clock_reads w) (s3_objects w)).

(** [datetime.now(timezone.utc).isoformat()] *)
Definition utcnow : M string :=
  fun w =>
    (Ok (utcnow_isoformat (clock_reads w)),
     mkWorld (_cached_secret w) (cache_writes w) (secrets_calls w)
             (http_calls w) (S (clock_reads w)) (s3_objects w)).

(** [S3_CLIENT.put_object(...)]: the object is stored unless the client
    raises. *)
Definition call_put_object (req : put_request) : M unit :=
  fun w =>
    match put_object (length (s3_objects w)) req with
    | Some msg => (Raise (ClientError msg), w)
    | None =>
        (Ok tt, mkWorld (_cached_secret w) (cache_writes w) (secrets_calls w)
                        (http_calls w) (clock_reads w) (s3_objects w ++ [req]))
    end.

(** [os.environ[name]] *)
Definition environ_item (name : string) : M string :=
  match environ name with
  | Some v => ret v
  | None => raise (KeyError name)
  end.

(** [os.environ.get(name, default)] *)
Definition environ_get (name default : string) : string :=
  match environ name with
  | Some v => v
  | None => default
  end.

(** *** [_load_token] *)

(** The test [isinstance(v, str) and v.strip()] of the three loops, with
    the value [v.strip()] they keep. *)
Definition token_of (v : pyval) : option string :=
  match v with
  | VStr s => if str_truthy (strip s) then Some (strip s) else None
  | _ => None
  end.

(** A loop that stops at the first value passing the test. *)
Fixpoint first_token (values : list pyval) : option string :=
  match values with
  | [] => None
  | v :: rest =>
      match token_of v with
      | Some t => Some t
      | None => first_token rest
      end
  end.

Definition token_keys : list string :=
  ["token"; "Token"; "PAT"; "pat"; "github_token"; "githubToken"; "value"].

(** The search of lines 32-50, ending with [candidate_value]. *)
Definition candidate_value (payload : pyval) : option string :=
  match payload with
  | VDict d =>
      match first_token (map (dict_get d) token_keys) with
      | Some t => Some t
      | None => first_token (dict_values d)
      end
  | VList items => first_token items
  | _ => None
  end.

Definition secret_missing_msg : string :=
  "Secret does not contain a SecretString payload.".
Definition secret_empty_msg : string :=
  "GitHub token secret is empty.".
Definition secret_json_no_token_msg : string :=
  ("Secret JSON found but no token field detected. "
   ++ "Expected keys: token, github_token, pat.")%string.

(** The part of [_load_token] between the fetch and the assignment to the
    global: from the trimmed secret to the token. *)
Definition token_from_secret (secret_value : string) : result string :=
  if startswith secret_value "{" then
    match json_loads secret_value with
    | Some payload =>
        match candidate_value payload with
        | None => Raise (RuntimeError secret_json_no_token_msg)
        | Some c => Ok c
        end
    | None => Ok secret_value
    end
  else Ok secret_value.

(** Lines 20-63: the path taken when the cache holds nothing. *)
Definition resolve_secret (secret_arn : string) : M string :=
  secret_string <- call_get_secret_value secret_arn ;;
  match secret_string with
  | None => raise (RuntimeError secret_missing_msg)
  | Some s =>
      if negb (str_truthy s) then raise (RuntimeError secret_missing_msg)
      else
        let secret_value := strip s in
        if negb (str_truthy secret_value)
        then raise (RuntimeError secret_empty_msg)
        else
          secret_value <- lift (token_from_secret secret_value) ;;
          set_cached_secret secret_value ;;;
          ret secret_value
  end.

Definition _load_token (secret_arn : string) : M string :=
  cached <- get_cached_secret ;;
  match cached with
  | Some c => if str_truthy c then ret c else resolve_secret secret_arn
  | None => resolve_secret secret_arn
  end.

(** *** [_github_request] *)

Definition github_headers (token : string) : list (string * string) :=
  [ ("Accept", "application/vnd.github+json");
    ("User-Agent", "morrison-im-lambda-sync");
    ("X-GitHub-Api-Version", "2022-11-28");
    ("Authorization", ("token " ++ token)%string) ].

Definition http_error_msg (code : N) (body : string) : string :=
  ("GitHub API error " ++ str_of_N code ++ ": " ++ body)%string.

Definition url_error_msg (reason : string) : string :=
  ("GitHub API request failed: " ++ reason)%string.

Definition _github_request (url token : string) : M pyval :=
  let req := mkRequest url (github_headers token) in
  reply <- call_urlopen req ;;
  match reply with
  | HTTPResponse payload =>
      match json_loads payload with
      | Some v => ret v
      | None => raise JSONDecodeError
      end
  | HTTPError code body => raise (RuntimeError (http_error_msg code body))
  | URLError reason => raise (RuntimeError (url_error_msg reason))
  | OtherException e => raise e
  end.

(** *** [_transform_repo] *)

Definition _transform_repo (raw : pyval) : M pyval :=
  pushed_at <- lift (py_get raw "pushed_at") ;;
  let last_push := match pushed_at with VStr _ => pushed_at | _ => VNone end in
  full_name <- lift (py_get raw "full_name") ;;
  name <- lift (py_get raw "name") ;;
  summary <- lift (py_get raw "description") ;;
  description <- lift (py_get raw "description") ;;
  html_url <- lift (py_get raw "html_url") ;;
  homepage <- lift (py_get raw "homepage") ;;
  stargazers_count <- lift (py_get raw "stargazers_count") ;;
  language <- lift (py_get raw "language") ;;
  topics <- lift (py_get_default raw "topics" (VList [])) ;;
  fetched_at <- utcnow ;;
  ret (VDict
    [ ("repo", full_name);
      ("displayName", name);
      ("summary", summary);
      ("description", description);
      ("htmlUrl", html_url);
      ("homepage", homepage);
      ("stars", stargazers_count);
      ("language", language);
      ("topics", topics);
      ("lastPush", last_push);
      ("sync", VDict [ ("status", VStr "ok");
                       ("statusMessage", VNone);
                       ("fetchedAt", VStr fetched_at) ]) ]).

(** *** [build_payload] and [put_to_s3] *)

Definition build_payload (repos : list pyval) : M pyval :=
  generated_at <- utcnow ;;
  projects <- mapM _transform_repo repos ;;
  ret (VDict [ ("generatedAt", VStr generated_at);
               ("source", VStr "aws-lambda");
               ("projects", VList projects) ]).

Definition put_to_s3 (bucket key : string) (payload : pyval) : M unit :=
  let body := json_dumps payload in
  call_put_object
    (mkPut bucket key body "application/json"
           "no-cache, no-store, must-revalidate").

(** *** [lambda_handler] *)

Definition api_url (username : string) : string :=
  ("https://api.github.com/users/" ++ username ++ "/repos"
   ++ "?per_page=100&sort=updated")%string.

(** [lambda item: item.get("pushed_at", "")] *)
Definition pushed_at_key (item : pyval) : result pyval :=
  py_get_default item "pushed_at" (VStr "").

Definition unexpected_payload_msg : string :=
  "Unexpected payload from GitHub API.".

(** Lines 146-151: sort, then truncate. *)
Definition sort_and_truncate (repos : list pyval) (repo_limit : Z)
  : result (list pyval) :=
  (sorted_repos <- sorted repos pushed_at_key true ;;
   Ok (slice_to sorted_repos repo_limit))%res.

Definition lambda_handler (event context : pyval) : M pyval :=
  username <- environ_item "GITHUB_USERNAME" ;;
  bucket <- environ_item "SITE_BUCKET_NAME" ;;
  let key := environ_get "PROJECTS_OBJECT_KEY" "projects.json" in
  secret_arn <- environ_item "GITHUB_TOKEN_SECRET_ARN" ;;
  repo_limit <- lift (py_int (environ_get "REPO_LIMIT" "5")) ;;
  token <- _load_token secret_arn ;;
  repos <- _github_request (api_url username) token ;;
  match repos with
  | VList repos =>
      top_repos <- lift (sort_and_truncate repos repo_limit) ;;
      payload <- build_payload top_repos ;;
      put_to_s3 bucket key payload ;;;
      ret (VDict [ ("status", VStr "ok");
                   ("bucket", VStr bucket);
                   ("key", VStr key);
                   ("count", VInt (Z.of_nat (length top_repos))) ])
  | _ => raise (RuntimeError unexpected_payload_msg)
  end.

End GithubSync.

(* ================================================================== *)
(** ** A JSON codec and a configurable set of services

    [json_decode] and [json_encode] cover the JSON used by the examples:
    objects, arrays, strings with the short escapes, integers and the
    three literals.  They give the examples a [json] module to run with;
    the theorems hold for every [Services]. *)

Module Json.

Definition dquote : ascii := ascii_of_nat 34.
Definition backslash : ascii := ascii_of_nat 92.

Fixpoint skip_ws (s : string) : string :=
  match s with
  | String c r =>
      let n := N_of_ascii c in
      if ((n =? 32) || (n =? 9) || (n =? 10) || (n =? 13))%N
      then skip_ws r else s
  | EmptyString => EmptyString
  end.

Definition unescape (c : ascii) : option ascii :=
  if Ascii.eqb c dquote then Some dquote
  else if Ascii.eqb c backslash then Some backslash
  else if Ascii.eqb c "/" then Some "/"%char
  else if Ascii.eqb c "n" then Some (ascii_of_nat 10)
  else if Ascii.eqb c "t" then Some (ascii_of_nat 9)
  else if Ascii.eqb c "r" then Some (ascii_of_nat 13)
  else if Ascii.eqb c "b" then Some (ascii_of_nat 8)
  else if Ascii.eqb c "f" then Some (ascii_of_nat 12)
  else None.

(** The characters of a string literal after its opening quote, and what
    follows the closing quote. *)
Fixpoint string_body (s : string) : option (string * string) :=
  match s with
  | EmptyString => None
  | String c r =>
      if Ascii.eqb c dquote then Some (EmptyString, r)
      else if Ascii.eqb c backslash then
        match r with
        | String e r' =>
            match unescape e, string_body r' with
            | Some c', Some (body, rest) => Some (String c' body, rest)
            | _, _ => None
            end
        | EmptyString => None
        end
      else if (N_of_ascii c <? 32)%N then None
      else
        match string_body r with
        | Some (body, rest) => Some (String c body, rest)
        | None => None
        end
  end.

Fixpoint digits (s : string) (acc : Z) : Z * string :=
  match s with
  | String c r =>
      match digit_of c with
      | Some d => digits r (10 * acc + d)%Z
      | None => (acc, s)
      end
  | EmptyString => (acc, s)
  end.

(** An integer without sign: a lone [0], or digits not starting with [0];
    a fraction or an exponent is not in the fragment. *)
Definition natural (s : string) : option (Z * string) :=
  match s with
  | String c r =>
      match digit_of c with
      | Some d =>
          let '(z, rest) := if (d =? 0)%Z then (0%Z, r) else digits r d in
          match rest with
          | String c' _ =>
              if (Ascii.eqb c' "." || Ascii.eqb c' "e" || Ascii.eqb c' "E"
                  || match digit_of c' with Some _ => true | None => false end)%bool
              then None else Some (z, rest)
          | EmptyString => Some (z, rest)
          end
      | None => None
      end
  | EmptyString => None
  end.

Definition literal (word : string) (v : pyval) (s : string)
  : option (pyval * string) :=
  if prefix word s
  then Some (v, substring (String.length word)
                          (String.length s - String.length word) s)
  else None.

Fixpoint value (fuel : nat) (s : string) {struct fuel}
  : option (pyval * string) :=
  match fuel with
  | O => None
  | S fuel =>
      match skip_ws s with
      | EmptyString => None
      | String c r =>
          if Ascii.eqb c "{" then
            match skip_ws r with
            | String "}" r' => Some (VDict [], r')
            | r1 => members fuel r1 []
            end
          else if Ascii.eqb c "[" then
            match skip_ws r with
            | String "]" r' => Some (VList [], r')
            | r1 => elements fuel r1 []
            end
          else if Ascii.eqb c dquote then
            match string_body r with
            | Some (body, rest) => Some (VStr body, rest)
            | None => None
            end
          else if Ascii.eqb c "-" then
            match natural r with
            | Some (z, rest) => Some (VInt (- z), rest)
            | None => None
            end
          else if Ascii.eqb c "n" then literal "null" VNone (String c r)
          else if Ascii.eqb c "t" then literal "true" (VBool true) (String c r)
          else if Ascii.eqb c "f" then literal "false" (VBool false) (String c r)
          else
            match natural (String c r) with
            | Some (z, rest) => Some (VInt z, rest)
            | None => None
            end
      end
  end

with members (fuel : nat) (s : string) (acc : dict) {struct fuel}
  : option (pyval * string) :=
  match fuel with
  | O => None
  | S fuel =>
      match skip_ws s with
      | String c r =>
          if Ascii.eqb c dquote then
            match string_body r with
            | Some (k, r1) =>
                match skip_ws r1 with
                | String ":" r2 =>
                    match value fuel r2 with
                    | Some (v, r3) =>
                        let acc' := dict_set k v acc in
                        match skip_ws r3 with
                        | String "," r4 => members fuel r4 acc'
                        | String "}" r4 => Some (VDict acc', r4)
                        | _ => None
                        end
                    | None => None
                    end
                | _ => None
                end
            | None => None
            end
          else None
      | EmptyString => None
      end
  end

with elements (fuel : nat) (s : string) (acc : list pyval) {struct fuel}
  : option (pyval * string) :=
  match fuel with
  | O => None
  | S fuel =>
      match value fuel s with
      | Some (v, r) =>
          match skip_ws r with
          | String "," r' => elements fuel r' (acc ++ [v])
          | String "]" r' => Some (VList (acc ++ [v]), r')
          | _ => None
          end
      | None => None
      end
  end.

(** [json.loads(s)]; [None] stands for [JSONDecodeError]. *)
Definition json_decode (s : string) : option pyval :=
  match value (2 * String.length s + 2) s with
  | Some (v, rest) =>
      match skip_ws rest with
      | EmptyString => Some v
      | _ => None
      end
  | None => None
  end.

Definition hex_digit (n : N) : ascii :=
  if (n <? 10)%N then ascii_of_N (48 + n) else ascii_of_N (87 + n).

(** One character of a string literal, escaped as [json.dumps] does with
    [ensure_ascii=False]. *)
Definition escape (c : ascii) : string :=
  let n := N_of_ascii c in
  if Ascii.eqb c dquote then String backslash (String dquote EmptyString)
  else if Ascii.eqb c backslash then String backslash (String backslash EmptyString)
  else if (n =? 10)%N then String backslash "n"
  else if (n =? 13)%N then String backslash "r"
  else if (n =? 9)%N then String backslash "t"
  else if (n =? 8)%N then String backslash "b"
  else if (n =? 12)%N then String backslash "f"
  else if (n <? 32)%N
       then String backslash
              (String "u" (String "0" (String "0"
                 (String (hex_digit (n / 16)) (String (hex_digit (n mod 16))
                    EmptyString)))))
  else String c EmptyString.

Fixpoint escape_all (s : string) : string :=
  match s with
  | EmptyString => EmptyString
  | String c r => (escape c ++ escape_all r)%string
  end.

Definition quoted (s : string) : string :=
  String dquote (escape_all s ++ String dquote EmptyString)%string.

Definition str_of_Z (z : Z) : string :=
  match z with
  | Zneg p => String "-" (str_of_N (Npos p))
  | _ => str_of_N (Z.to_N z)
  end.

(** [json.dumps(v, separators=(",", ":"), ensure_ascii=False)] *)
Fixpoint json_encode (v : pyval) : string :=
  match v with
  | VNone => "null"
  | VBool true => "true"
  | VBool false => "false"
  | VInt z => str_of_Z z
  | VStr s => quoted s
  | VList items =>
      ("[" ++ (fix go (first : bool) (l : list pyval) : string :=
                 match l with
                 | [] => EmptyString
                 | x :: l' =>
                     (if first then EmptyString else ",")
                     ++ json_encode x ++ go false l'
                 end) true items ++ "]")%string
  | VDict items =>
      ("{" ++ (fix go (first : bool) (l : list (string * pyval)) : string :=
                 match l with
                 | [] => EmptyString
                 | (k, x) :: l' =>
                     (if first then EmptyString else ",")
                     ++ quoted k ++ ":" ++ json_encode x ++ go false l'
                 end) true items ++ "}")%string
  end.

End Json.

(** Services fixed by an environment, one secret, one network answer and
    a clock that reads the same instant; S3 accepts every object. *)
Definition fixed_services (env : list (string * string))
  (secret : secrets_reply) (answer : http_final) : Services :=
  {| environ := fun name =>
       option_map snd (find (fun kv => String.eqb (fst kv) name) env);
     get_secret_value := fun _ _ => secret;
     json_loads := Json.json_decode;
     json_dumps := Json.json_encode;
     urlopen := fun _ _ => answer;
     utcnow_isoformat := fun _ => "2024-07-01T00:00:00+00:00";
     put_object := fun _ _ => None |}.


(* ================================================================== *)
(** ** Vocabulary of the properties *)

(** A record whose last-push field is a string or is missing. *)
Definition timestamped (item : pyval) : bool :=
  match item with
  | VDict d =>
      match dict_lookup "pushed_at" d with
      | None | Some (VStr _) => true
      | Some _ => false
      end
  | _ => false
  end.

(** The last-push field of a record, the empty string when it is missing. *)
Definition push_key (item : pyval) : string :=
  match item with
  | VDict d =>
      match dict_lookup "pushed_at" d with
      | Some (VStr s) => s
      | _ => EmptyString
      end
  | _ => EmptyString
  end.

(** [a] may stand before [b] in a list sorted by last push, descending. *)
Definition not_older (a b : pyval) : Prop :=
  String.leb (push_key b) (push_key a) = true.

(** The records of [l] whose last-push field is [k], in their order. *)
Definition pushed_on (k : string) (l : list pyval) : list pyval :=
  filter (fun r => String.eqb (push_key r) k) l.


(** Decorated elements with string keys, as the sort sees them. *)
Section Keyed.
Variable A : Type.

(** The string under a decorated element. *)
Definition skey (x : pyval * A) : string :=
  match fst x with
  | VStr k => k
  | _ => EmptyString
  end.

Definition str_keyed (x : pyval * A) : Prop := fst x = VStr (skey x).

Definition asc (x y : pyval * A) : Prop :=
  String.leb (skey x) (skey y) = true.

Definition has_key (k : string) (x : pyval * A) : bool :=
  String.eqb (skey x) k.

End Keyed.
Arguments skey {A} x.
Arguments str_keyed {A} x.
Arguments asc {A} x y.
Arguments has_key {A} k x.

(** A record decorated with its sort key. *)
Definition tag (r : pyval) : pyval * pyval := (VStr (push_key r), r).

(** Records as in the example of the specification.  [repo_unpushed] has
    no last-push field, [repo_null] holds a null there; [repo_2023_bis]
    shares its key with [repo_2023]. *)
Definition repo_2023 : pyval :=
  VDict [("name", VStr "alpha"); ("pushed_at", VStr "2023-01-01")].
Definition repo_2024 : pyval :=
  VDict [("name", VStr "gamma"); ("pushed_at", VStr "2024-06-01")].
Definition repo_unpushed : pyval :=
  VDict [("name", VStr "beta")].
Definition repo_null : pyval :=
  VDict [("name", VStr "beta"); ("pushed_at", VNone)].
Definition repo_2023_bis : pyval :=
  VDict [("name", VStr "epsilon"); ("pushed_at", VStr "2023-01-01")].

Definition four_repos : list pyval :=
  [repo_2023; repo_unpushed; repo_2024; repo_2023_bis].

Definition is_digit (c : ascii) : bool :=
  match digit_of c with
  | Some _ => true
  | None => false
  end.

Fixpoint all_digits (s : string) : bool :=
  match s with
  | EmptyString => true
  | String c r => is_digit c && all_digits r
  end.

(** Observations on a running process. *)
Section Observations.
Context {svc : Services}.
Local Open Scope action_scope.

(** A sequence of calls to [_load_token] in one process, with what each
    returned or raised. *)
Fixpoint load_tokens (arns : list string) (w : world)
  : list (result string) * world :=
  match arns with
  | [] => ([], w)
  | arn :: rest =>
      let (r, w1) := _load_token arn w in
      let (rs, w2) := load_tokens rest w1 in
      (r :: rs, w2)
  end.

Definition is_raise (A : Type) (r : result A) : Prop := exists e, r = Raise e.

(** What the backend answers to the next call. *)
Definition next_secret (arn : string) (w : world) : secrets_reply :=
  get_secret_value (length (secrets_calls w)) arn.

(** The final response to the next request. *)
Definition next_response (url token : string) (w : world) : http_final :=
  urlopen (length (http_calls w)) (mkRequest url (github_headers token)).

(** The steps of [lambda_handler] after the configuration has been read. *)
Definition pipeline (username bucket key secret_arn : string) (repo_limit : Z)
  : M pyval :=
  (token <- _load_token secret_arn ;;
   repos <- _github_request (api_url username) token ;;
   match repos with
   | VList repos =>
       top_repos <- lift (sort_and_truncate repos repo_limit) ;;
       payload <- build_payload top_repos ;;
       put_to_s3 bucket key payload ;;;
       ret (VDict [ ("status", VStr "ok");
                    ("bucket", VStr bucket);
                    ("key", VStr key);
                    ("count", VInt (Z.of_nat (length top_repos))) ])
   | _ => raise (RuntimeError unexpected_payload_msg)
   end).

End Observations.
Arguments is_raise {A} r.

(** The value of a computation that returned; [None] if it raised. *)
Definition fst_ok (a : result pyval * world) : pyval :=
  match fst a with
  | Ok v => v
  | Raise _ => VNone
  end.

(** [w'] differs from [w] by readings of the clock at most. *)
Definition same_but_clock (w w' : world) : Prop :=
  _cached_secret w' = _cached_secret w
  /\ cache_writes w' = cache_writes w
  /\ secrets_calls w' = secrets_calls w
  /\ http_calls w' = http_calls w
  /\ s3_objects w' = s3_objects w.

(** *** Sample services *)

(** A secret in plain text, with blanks around it. *)
Definition plain_secret : string := "  ghp_plain  ".

(** A JSON secret holding both ["pat"] and ["token"]. *)
Definition both_keys : dict :=
  [("pat", VStr "p-123"); ("token", VStr " t-456 ")].
Definition both_keys_secret : string :=
  (" " ++ Json.json_encode (VDict both_keys) ++ " ")%string.

(** A JSON secret whose ["token"] holds a blank. *)
Definition blank_token : dict :=
  [("token", VStr " "); ("pat", VStr "abc")].
Definition blank_token_secret : string := Json.json_encode (VDict blank_token).

Definition sample_environ : list (string * string) :=
  [ ("GITHUB_USERNAME", "chrism202");
    ("SITE_BUCKET_NAME", "site-bucket");
    ("GITHUB_TOKEN_SECRET_ARN", "arn:github-token");
    ("REPO_LIMIT", "2") ].

Definition repos_answer (repos : list pyval) : http_final :=
  FinalResponse 200 (Json.json_encode (VList repos)).

Definition svc_plain : Services :=
  fixed_services sample_environ (SecretsResponse (Some plain_secret))
                 (repos_answer [repo_2023; repo_unpushed; repo_2024]).
Definition svc_both_keys : Services :=
  fixed_services sample_environ (SecretsResponse (Some both_keys_secret))
                 (repos_answer []).
Definition svc_blank_token : Services :=
  fixed_services sample_environ (SecretsResponse (Some blank_token_secret))
                 (repos_answer []).
Definition svc_empty_payload : Services :=
  fixed_services sample_environ (SecretsResponse (Some EmptyString))
                 (repos_answer []).
Definition svc_blank_payload : Services :=
  fixed_services sample_environ (SecretsResponse (Some "   "))
                 (repos_answer []).
Definition svc_null_pushed : Services :=
  fixed_services sample_environ (SecretsResponse (Some plain_secret))
                 (repos_answer [repo_2023; repo_null; repo_2024]).
Definition svc_not_found : Services :=
  fixed_services sample_environ (SecretsResponse (Some plain_secret))
                 (FinalResponse 404 "Not Found").

(** A listing of two records, one with a null last push; the limit of
    the sample environment, 2, is their number. *)
Definition svc_two_with_null : Services :=
  fixed_services sample_environ (SecretsResponse (Some plain_secret))
                 (repos_answer [repo_null; repo_2024]).

(** An environment whose [REPO_LIMIT] is a digit behind the separator
    U+001C. *)
Definition svc_bad_limit : Services :=
  fixed_services
    [ ("GITHUB_USERNAME", "chrism202");
      ("SITE_BUCKET_NAME", "site-bucket");
      ("GITHUB_TOKEN_SECRET_ARN", "arn:github-token");
      ("REPO_LIMIT", String (ascii_of_nat 28) "5") ]
    (SecretsResponse (Some plain_secret))
    (repos_answer [repo_2023]).

(** A literal of [n] digits. *)
Definition ones (n : nat) : string := string_of_list_ascii (repeat "1"%char n).

(** A JSON secret without any of the named keys. *)
Definition fallback_keys : dict :=
  [("note", VInt 1); ("api", VStr "  "); ("credential", VStr " ghp_fallback ")].
Definition svc_fallback : Services :=
  fixed_services sample_environ
    (SecretsResponse (Some (Json.json_encode (VDict fallback_keys))))
    (repos_answer []).

(** A JSON secret without any usable string. *)
Definition no_token_keys : dict :=
  [("token", VInt 12345); ("pat", VStr "  ")].
Definition svc_no_token : Services :=
  fixed_services sample_environ
    (SecretsResponse (Some (Json.json_encode (VDict no_token_keys))))
    (repos_answer []).

(** A process whose cache was filled by an earlier invocation. *)
Definition warm_world : world :=
  mkWorld (Some "ghp_cached") 1 ["arn:github-token"] [] 0 [].

(** Services whose secret has been rotated since, and whose network
    answers 401. *)
Definition svc_rotated : Services :=
  fixed_services sample_environ (SecretsResponse (Some "ghp_rotated"))
                 (FinalResponse 401 "Bad credentials").

Definition svc_no_repos : Services :=
  fixed_services sample_environ (SecretsResponse (Some plain_secret))
                 (repos_answer []).

(** Services with the two optional variables left out of the environment,
    and six repositories to list. *)
Definition svc_defaults : Services :=
  fixed_services
    [ ("GITHUB_USERNAME", "chrism202");
      ("SITE_BUCKET_NAME", "site-bucket");
      ("GITHUB_TOKEN_SECRET_ARN", "arn:github-token") ]
    (SecretsResponse (Some plain_secret))
    (repos_answer [repo_2023; repo_unpushed; repo_2024; repo_2023_bis;
                   repo_2023; repo_2024]).

Definition defaults_result : result pyval :=
  Ok (VDict [ ("status", VStr "ok"); ("bucket", VStr "site-bucket");
              ("key", VStr "projects.json"); ("count", VInt 5) ]).

(* ================================================================== *)
(** ** Properties *)

(** *** Order on strings *)

Lemma ltb_false_leb (x y : string) :
  String.ltb y x = false <-> String.leb x y = true.
Proof.
  unfold String.ltb, String.leb.
  rewrite (String.compare_antisym x y).
  destruct (String.compare y x); simpl; split; congruence.
Qed.

Lemma ltb_true_leb (x y : string) :
  String.ltb y x = true -> String.leb y x = true.
Proof.
  unfold String.ltb, String.leb.
  destruct (String.compare y x); congruence.
Qed.

Lemma ltb_irrefl (x : string) : String.ltb x x = false.
Proof.
  apply ltb_false_leb. destruct (String.leb_total x x); assumption.
Qed.

Lemma leb_cases (x y : string) :
  String.leb x y = true <-> x = y \/ String_as_OT.lt x y.
Proof.
  unfold String.leb. split.
  - destruct (String.compare x y) eqn:E; try discriminate; intros _.
    + left. now apply String.compare_eq_iff.
    + right. now apply String_as_OT.cmp_lt.
  - intros [-> | H].
    + destruct (String.compare y y) eqn:E; trivial.
      assert (F := String.compare_antisym y y). rewrite E in F. discriminate.
    + apply String_as_OT.cmp_lt in H. unfold String_as_OT.cmp in H.
      now rewrite H.
Qed.

Lemma leb_trans (x y z : string) :
  String.leb x y = true -> String.leb y z = true -> String.leb x z = true.
Proof.
  rewrite !leb_cases. intros [-> | H1] [-> | H2]; auto.
  right. eapply String_as_OT.lt_trans; eassumption.
Qed.

(** *** The sort on string keys *)

Section SortFacts.
Variable A : Type.
Implicit Types (x y : pyval * A) (s l r : list (pyval * A)).

Lemma py_lt_str_keyed x y :
  str_keyed x -> str_keyed y ->
  py_lt (fst y) (fst x) = Ok (String.ltb (skey y) (skey x)).
Proof.
  unfold str_keyed. intros Hx Hy. rewrite Hx, Hy. reflexivity.
Qed.

Lemma insert_spec x s :
  str_keyed x -> Forall str_keyed s ->
  exists r,
    insert x s = Ok r
    /\ Permutation (x :: s) r
    /\ (forall k, filter (has_key k) r = filter (has_key k) (x :: s))
    /\ (StronglySorted asc s -> StronglySorted asc r).
Proof.
  intros Hx. induction s as [| y s IH]; intros Hs.
  - exists [x]. simpl. repeat split; auto using StronglySorted.
  - inversion Hs as [| ? ? Hy Hs']; subst.
    destruct (IH Hs') as (r & Er & Pr & Fr & Sr).
    simpl. rewrite (py_lt_str_keyed Hx Hy). simpl.
    destruct (String.ltb (skey y) (skey x)) eqn:L.
    + rewrite Er. simpl. exists (y :: r). split; [reflexivity |].
      split; [| split].
      * rewrite perm_swap. now constructor.
      * intros k. simpl. rewrite Fr. simpl.
        destruct (has_key k y) eqn:Ey; destruct (has_key k x) eqn:Ex; trivial.
        unfold has_key in Ey, Ex. apply String.eqb_eq in Ey, Ex. subst k. rewrite Ex in L.
        rewrite ltb_irrefl in L. discriminate.
      * intros SS. apply StronglySorted_inv in SS. destruct SS as [SS Hd].
        constructor; [auto |].
        eapply Permutation_Forall; [exact Pr |].
        constructor; [| exact Hd].
        unfold asc. now apply ltb_true_leb.
    + exists (x :: y :: s). repeat split; auto.
      intros SS. constructor; [exact SS |].
      apply ltb_false_leb in L.
      apply StronglySorted_inv in SS. destruct SS as [_ Hd].
      constructor; [exact L |].
      eapply Forall_impl; [| exact Hd].
      intros z Hz. unfold asc in *. eapply leb_trans; eassumption.
Qed.

Lemma sort_keyed_spec l :
  Forall str_keyed l ->
  exists r,
    sort_keyed l = Ok r
    /\ Permutation l r
    /\ (forall k, filter (has_key k) r = filter (has_key k) l)
    /\ StronglySorted asc r.
Proof.
  induction l as [| x l IH]; intros Hl.
  - exists []. simpl. repeat split; auto using StronglySorted.
  - inversion Hl as [| ? ? Hx Hl']; subst.
    destruct (IH Hl') as (s & Es & Ps & Fs & Ss).
    assert (Hs : Forall str_keyed s) by (eapply Permutation_Forall; eassumption).
    destruct (insert_spec Hx Hs) as (r & Er & Pr & Fr & Sr).
    exists r. simpl. rewrite Es. simpl. split; [exact Er |].
    split; [| split].
    + etransitivity; [| exact Pr]. now constructor.
    + intros k. rewrite Fr. simpl. now rewrite Fs.
    + auto.
Qed.

Lemma filter_rev (f : pyval * A -> bool) l :
  filter f (rev l) = rev (filter f l).
Proof.
  induction l as [| x l IH]; simpl; trivial.
  rewrite filter_app, IH. simpl. destruct (f x); simpl; trivial.
  now rewrite app_nil_r.
Qed.

Lemma StronglySorted_snoc (R : pyval * A -> pyval * A -> Prop) l x :
  StronglySorted R l -> Forall (fun y => R y x) l ->
  StronglySorted R (l ++ [x]).
Proof.
  induction 1 as [| y l SS IH Hd]; simpl; intros Hx.
  - repeat constructor.
  - inversion Hx; subst. constructor; [auto |].
    apply Forall_app. split; [exact Hd | auto].
Qed.

Lemma StronglySorted_rev (R : pyval * A -> pyval * A -> Prop) l :
  StronglySorted R l -> StronglySorted (fun a b => R b a) (rev l).
Proof.
  induction 1 as [| x l SS IH Hd]; simpl.
  - constructor.
  - apply StronglySorted_snoc; [exact IH |].
    now apply Forall_rev.
Qed.

End SortFacts.

(** *** Sorting the fetched records *)

Lemma pushed_at_key_timestamped r :
  timestamped r = true -> pushed_at_key r = Ok (VStr (push_key r)).
Proof.
  destruct r as [| | | | |d]; simpl; try discriminate.
  unfold pushed_at_key, py_get_default, dict_get_default.
  destruct (dict_lookup "pushed_at" d) as [[]|]; simpl; congruence.
Qed.

Lemma decorate_timestamped repos :
  Forall (fun r => timestamped r = true) repos ->
  decorate pushed_at_key repos = Ok (map tag repos).
Proof.
  induction 1 as [| r repos Hr _ IH]; simpl; trivial.
  now rewrite (pushed_at_key_timestamped _ Hr), IH.
Qed.

Lemma tagged_map (s : list (pyval * pyval)) :
  Forall (fun p => p = tag (snd p)) s -> s = map tag (map snd s).
Proof.
  induction 1 as [| p s Hp _ IH]; simpl; trivial.
  now rewrite <- Hp, <- IH.
Qed.

Lemma filter_map_tag k l :
  filter (has_key k) (map tag l) = map tag (pushed_on k l).
Proof.
  unfold pushed_on. induction l as [| r l IH]; simpl; trivial.
  unfold has_key at 1. unfold skey. simpl.
  destruct (String.eqb (push_key r) k); simpl; now rewrite IH.
Qed.

Lemma map_tag_inj l m : map tag l = map tag m -> l = m.
Proof.
  intros H. apply (f_equal (map snd)) in H.
  rewrite !map_map in H. simpl in H. now rewrite !map_id in H.
Qed.

Lemma StronglySorted_map_tag l :
  StronglySorted (fun a b => asc b a) (map tag l) ->
  StronglySorted not_older l.
Proof.
  induction l as [| r l IH]; simpl; intros H.
  - constructor.
  - apply StronglySorted_inv in H. destruct H as [SS Hd].
    constructor; [auto |].
    rewrite Forall_map in Hd. exact Hd.
Qed.

(** On records whose last-push field is a string or missing, [sorted]
    returns a stable descending sort. *)
Lemma sorted_timestamped repos :
  Forall (fun r => timestamped r = true) repos ->
  exists sorted_repos,
    sorted repos pushed_at_key true = Ok sorted_repos
    /\ Permutation repos sorted_repos
    /\ StronglySorted not_older sorted_repos
    /\ (forall k, pushed_on k sorted_repos = pushed_on k repos).
Proof.
  intros Hr. unfold sorted. rewrite (decorate_timestamped Hr). simpl.
  assert (Hk : Forall str_keyed (rev (map tag repos))).
  { apply Forall_rev, Forall_map, Forall_forall. intros; reflexivity. }
  destruct (sort_keyed_spec Hk) as (s & Es & Ps & Fs & Ss).
  rewrite Es. simpl. exists (map snd (rev s)). split; [reflexivity |].
  assert (Ht : rev s = map tag (map snd (rev s))).
  { apply tagged_map, Forall_rev.
    eapply Permutation_Forall; [exact Ps |].
    apply Forall_rev, Forall_map, Forall_forall. intros; reflexivity. }
  split; [| split].
  - rewrite map_rev. rewrite <- Permutation_rev.
    apply Permutation_map with (f := snd) in Ps.
    rewrite map_rev, map_map in Ps. simpl in Ps. rewrite map_id in Ps.
    rewrite <- Ps. apply Permutation_rev.
  - apply StronglySorted_map_tag. rewrite <- Ht.
    now apply StronglySorted_rev.
  - intros k. apply map_tag_inj. rewrite <- !filter_map_tag, <- Ht.
    rewrite filter_rev, Fs, filter_rev. apply rev_involutive.
Qed.

Lemma slice_to_all (A : Type) (l : list A) (stop : Z) :
  (Z.of_nat (length l) <= stop)%Z -> slice_to l stop = l.
Proof.
  intros H. unfold slice_to.
  destruct (0 <=? stop)%Z eqn:E; [| lia].
  apply firstn_all2. lia.
Qed.

Lemma missing_sorts_last d r :
  dict_lookup "pushed_at" d = None -> not_older r (VDict d).
Proof.
  intros H. unfold not_older. simpl. rewrite H.
  destruct (push_key r); reflexivity.
Qed.

Example sort_missing_pushed_at :
  sort_and_truncate [repo_2023; repo_unpushed; repo_2024] 2
  = Ok [repo_2024; repo_2023].
Proof. reflexivity. Qed.

(** C1.  The list of the specification's example -- last-push values
    "2023-01-01", null, "2024-06-01" -- with a limit of 2: the key of the
    middle record is [None], the sort compares it with a string and raises
    [TypeError]; no list of two records is produced, and a handler that
    fetches this list raises that error and stores nothing. *)
Theorem sort_null_pushed_at_raises :
  pushed_at_key repo_null = Ok VNone
  /\ sort_and_truncate [repo_2023; repo_null; repo_2024] 2
     = Raise not_supported
  /\ fst (@_github_request svc_null_pushed
            (api_url "chrism202") "ghp_plain"
            (snd (@_load_token svc_null_pushed "arn:github-token"
                               initial_world)))
     = Ok (VList [repo_2023; repo_null; repo_2024])
  /\ fst (@lambda_handler svc_null_pushed VNone VNone initial_world)
     = Raise not_supported
  /\ s3_objects (snd (@lambda_handler svc_null_pushed VNone VNone
                                      initial_world)) = [].
Proof. repeat split; vm_compute; reflexivity. Qed.

(** C2.  A list of two records, one of them with a null last-push field,
    and a limit that is not below their number: the sort does not return
    the two records in descending order, it raises [TypeError]; a handler
    that fetches this list raises that error and stores nothing. *)
Theorem sort_null_with_ample_limit_raises :
  (Z.of_nat (length [repo_null; repo_2024]) <= 2)%Z
  /\ pushed_at_key repo_null = Ok VNone
  /\ sort_and_truncate [repo_null; repo_2024] 2 = Raise not_supported
  /\ fst (@_github_request svc_two_with_null
            (api_url "chrism202") "ghp_plain"
            (snd (@_load_token svc_two_with_null "arn:github-token"
                               initial_world)))
     = Ok (VList [repo_null; repo_2024])
  /\ fst (@lambda_handler svc_two_with_null VNone VNone initial_world)
     = Raise not_supported
  /\ s3_objects (snd (@lambda_handler svc_two_with_null VNone VNone
                                      initial_world)) = [].
Proof.
  split; [simpl; lia |]. repeat split; vm_compute; reflexivity.
Qed.

(** X20.  The sort on well-formed timestamps.  For every fetched list of
    records whose last-push field, where present, is a string: the sort
    succeeds; its outcome is a rearrangement of the input, in descending
    order of the field with a missing field counted as the empty string
    (hence last), records with equal keys keeping their input order; the
    handler keeps the first [repo_limit] of them, and all of them, in that
    order, when [repo_limit] is at least their number. *)
Theorem sort_and_truncate_timestamped (repos : list pyval) (repo_limit : Z) :
  Forall (fun r => timestamped r = true) repos ->
  exists sorted_repos,
    sorted repos pushed_at_key true = Ok sorted_repos
    /\ Permutation repos sorted_repos
    /\ StronglySorted not_older sorted_repos
    /\ (forall d r, dict_lookup "pushed_at" d = None -> not_older r (VDict d))
    /\ (forall k, pushed_on k sorted_repos = pushed_on k repos)
    /\ sort_and_truncate repos repo_limit
       = Ok (slice_to sorted_repos repo_limit)
    /\ ((Z.of_nat (length repos) <= repo_limit)%Z ->
        sort_and_truncate repos repo_limit = Ok sorted_repos).
Proof.
  intros Hr.
  destruct (sorted_timestamped Hr) as (out & E & P & S & F).
  exists out. unfold sort_and_truncate. rewrite E. simpl.
  repeat split; auto using missing_sorts_last.
  intros Hl. rewrite slice_to_all; trivial.
  rewrite <- (Permutation_length P). exact Hl.
Qed.

Example sort_four_repos :
  sort_and_truncate four_repos 4
  = Ok [repo_2024; repo_2023; repo_2023_bis; repo_unpushed].
Proof. reflexivity. Qed.

Lemma sort_and_truncate_timestamped_witness :
  Forall (fun r => timestamped r = true) four_repos
  /\ exists sorted_repos,
       sorted four_repos pushed_at_key true = Ok sorted_repos
       /\ Permutation four_repos sorted_repos
       /\ StronglySorted not_older sorted_repos
       /\ (forall d r, dict_lookup "pushed_at" d = None -> not_older r (VDict d))
       /\ (forall k, pushed_on k sorted_repos = pushed_on k four_repos)
       /\ sort_and_truncate four_repos 4 = Ok (slice_to sorted_repos 4)
       /\ ((Z.of_nat (length four_repos) <= 4)%Z ->
           sort_and_truncate four_repos 4 = Ok sorted_repos).
Proof.
  assert (H : Forall (fun r => timestamped r = true) four_repos)
    by (repeat constructor).
  split; [exact H |].
  exact (@sort_and_truncate_timestamped four_repos 4 H).
Defined.

(** *** The credential cache *)

Section CacheFacts.
Context {svc : Services}.

Lemma first_token_truthy values t :
  first_token values = Some t -> str_truthy t = true.
Proof.
  induction values as [| v values IH]; simpl; [discriminate |].
  destruct (token_of v) as [t' |] eqn:E; [| exact IH].
  intros [= ->]. destruct v; simpl in E; try discriminate.
  destruct (str_truthy (strip s)) eqn:T; [| discriminate].
  injection E as <-. exact T.
Qed.

Lemma candidate_value_truthy payload t :
  candidate_value payload = Some t -> str_truthy t = true.
Proof.
  destruct payload as [| | | | items | d]; unfold candidate_value;
    try discriminate.
  - apply first_token_truthy.
  - destruct (first_token (map (dict_get d) token_keys)) eqn:E.
    + intros [= ->]. eapply first_token_truthy; eassumption.
    + apply first_token_truthy.
Qed.

Lemma token_from_secret_truthy secret_value t :
  str_truthy secret_value = true ->
  token_from_secret secret_value = Ok t -> str_truthy t = true.
Proof.
  intros Hs. unfold token_from_secret.
  destruct (startswith secret_value "{"); [| congruence].
  destruct (json_loads secret_value) as [payload |]; [| congruence].
  destruct (candidate_value payload) eqn:E; [| discriminate].
  intros [= ->]. eapply candidate_value_truthy; eassumption.
Qed.

(** A call that finds the cache filled returns it and changes nothing. *)
Lemma load_token_hit arn w t :
  _cached_secret w = Some t -> str_truthy t = true ->
  _load_token arn w = (Ok t, w).
Proof.
  intros Hc Ht. unfold _load_token, bind, get_cached_secret.
  rewrite Hc, Ht. reflexivity.
Qed.

Lemma load_token_miss arn w :
  _cached_secret w = None ->
  _load_token arn w = resolve_secret arn w.
Proof.
  intros Hc. unfold _load_token, bind, get_cached_secret.
  now rewrite Hc.
Qed.

(** The path through the backend: one call to it, and one assignment to
    the global exactly when a token is returned. *)
Lemma resolve_secret_effect arn w :
  let (r, w') := resolve_secret arn w in
  secrets_calls w' = secrets_calls w ++ [arn]
  /\ http_calls w' = http_calls w
  /\ clock_reads w' = clock_reads w
  /\ s3_objects w' = s3_objects w
  /\ match r with
     | Ok t => _cached_secret w' = Some t /\ str_truthy t = true
               /\ cache_writes w' = S (cache_writes w)
     | Raise _ => _cached_secret w' = _cached_secret w
                  /\ cache_writes w' = cache_writes w
     end.
Proof.
  unfold resolve_secret, bind, call_get_secret_value.
  destruct (get_secret_value (length (secrets_calls w)) arn) as [e | [s |]];
    simpl; auto 10.
  destruct (str_truthy s); simpl; auto 10.
  destruct (str_truthy (strip s)) eqn:T; simpl; auto 10.
  unfold lift. destruct (token_from_secret (strip s)) as [t | e] eqn:E;
    simpl; auto 10.
  repeat split. eapply token_from_secret_truthy; eassumption.
Qed.

Lemma load_tokens_warm arns w t :
  _cached_secret w = Some t -> str_truthy t = true ->
  load_tokens arns w = (repeat (Ok t) (length arns), w).
Proof.
  intros Hc Ht. induction arns as [| arn arns IH]; simpl; trivial.
  now rewrite (load_token_hit arn w Hc Ht), IH.
Qed.

Lemma load_tokens_cold arns : forall w,
  _cached_secret w = None ->
  let (rs, w') := load_tokens arns w in
  (Forall is_raise rs
   /\ cache_writes w' = cache_writes w
   /\ _cached_secret w' = None
   /\ secrets_calls w' = secrets_calls w ++ arns)
  \/ (exists pre t post,
        rs = pre ++ Ok t :: post
        /\ Forall is_raise pre
        /\ post = repeat (Ok t) (length post)
        /\ cache_writes w' = S (cache_writes w)
        /\ _cached_secret w' = Some t
        /\ secrets_calls w' = secrets_calls w ++ firstn (S (length pre)) arns).
Proof.
  induction arns as [| arn arns IH]; intros w Hc; simpl.
  - left. rewrite app_nil_r. auto.
  - rewrite (load_token_miss arn w Hc).
    assert (R := resolve_secret_effect arn w).
    destruct (resolve_secret arn w) as [[t | e] w1].
    + destruct R as (Hs & _ & _ & _ & Hc1 & Ht & Hw).
      rewrite (load_tokens_warm arns w1 Hc1 Ht).
      right. exists [], t, (repeat (Ok t) (length arns)). simpl.
      rewrite repeat_length. repeat split; auto.
    + destruct R as (Hs & _ & _ & _ & Hc1 & Hw).
      rewrite Hc in Hc1. specialize (IH w1 Hc1).
      destruct (load_tokens arns w1) as [rs w2].
      destruct IH as [(Hr & Hw2 & Hc2 & Hs2)
                     | (pre & t & post & E & Hp & Hpost & Hw2 & Hc2 & Hs2)].
      * left. repeat split; try congruence.
        -- constructor; [now exists e | exact Hr].
        -- rewrite Hs2, Hs, <- app_assoc. reflexivity.
      * right. exists (Raise e :: pre), t, post. repeat split; try congruence.
        -- simpl. now rewrite E.
        -- constructor; [now exists e | exact Hp].
        -- rewrite Hs2, Hs, <- app_assoc. reflexivity.
Qed.

(** C3.  In a process that starts with an empty cache, over any sequence
    of calls to [_load_token]: either every call raised and the global was
    never assigned; or the global was assigned exactly once, by the first
    call that returned a token, every later call returned that same token,
    and the backend was contacted only by the calls up to and including
    that first success. *)
Theorem cache_written_once (arns : list string) :
  let (rs, w') := load_tokens arns initial_world in
  (Forall is_raise rs
   /\ cache_writes w' = 0
   /\ _cached_secret w' = None
   /\ secrets_calls w' = arns)
  \/ (exists pre t post,
        rs = pre ++ Ok t :: post
        /\ Forall is_raise pre
        /\ post = repeat (Ok t) (length post)
        /\ cache_writes w' = 1
        /\ _cached_secret w' = Some t
        /\ secrets_calls w' = firstn (S (length pre)) arns).
Proof.
  exact (load_tokens_cold arns initial_world eq_refl).
Qed.

End CacheFacts.

(** *** The record transformer *)

Section TransformFacts.
Context {svc : Services}.

(** What [_transform_repo] returns on a dict, spelled out. *)
Lemma transform_repo_dict (d : dict) (w : world) :
  _transform_repo (VDict d) w
  = (Ok (VDict
       [ ("repo", dict_get d "full_name");
         ("displayName", dict_get d "name");
         ("summary", dict_get d "description");
         ("description", dict_get d "description");
         ("htmlUrl", dict_get d "html_url");
         ("homepage", dict_get d "homepage");
         ("stars", dict_get d "stargazers_count");
         ("language", dict_get d "language");
         ("topics", dict_get_default d "topics" (VList []));
         ("lastPush", match dict_get d "pushed_at" with
                      | VStr s => VStr s
                      | _ => VNone
                      end);
         ("sync", VDict [ ("status", VStr "ok");
                          ("statusMessage", VNone);
                          ("fetchedAt",
                           VStr (utcnow_isoformat (clock_reads w))) ]) ]),
     mkWorld (_cached_secret w) (cache_writes w) (secrets_calls w)
             (http_calls w) (S (clock_reads w)) (s3_objects w)).
Proof.
  unfold _transform_repo, bind, lift, py_get, py_get_default, utcnow, ret.
  unfold dict_get, dict_get_default. simpl.
  destruct (dict_lookup "pushed_at" d) as [[]|]; reflexivity.
Qed.

(** C4.  On every dict and in every state [_transform_repo] returns a
    record and does not raise; without a ["topics"] key the record's
    [topics] is the empty list; when ["pushed_at"] is missing or is not a
    string its [lastPush] is [None]; its [sync] block has [status] "ok" and
    [statusMessage] [None]. *)
Theorem transform_repo_total (d : dict) (w : world) :
  exists out w',
    _transform_repo (VDict d) w = (Ok (VDict out), w')
    /\ (dict_lookup "topics" d = None ->
        dict_lookup "topics" out = Some (VList []))
    /\ ((forall s, dict_lookup "pushed_at" d <> Some (VStr s)) ->
        dict_lookup "lastPush" out = Some VNone)
    /\ exists sync,
         dict_lookup "sync" out = Some (VDict sync)
         /\ dict_lookup "status" sync = Some (VStr "ok")
         /\ dict_lookup "statusMessage" sync = Some VNone.
Proof.
  rewrite transform_repo_dict. eexists. eexists. split; [reflexivity |].
  split; [| split].
  - intros H. simpl. unfold dict_get_default. now rewrite H.
  - intros H. simpl. unfold dict_get.
    destruct (dict_lookup "pushed_at" d) as [[]|] eqn:E; trivial.
    exfalso. eapply H. reflexivity.
  - eexists. split; [reflexivity |]. split; reflexivity.
Qed.

(** C10.  When the ["topics"] key is present, whatever its value -- [None]
    or any other value that is not a list included -- that value is the
    record's [topics]; so there is a raw record whose transformed [topics]
    is [None], not a list. *)
Theorem transform_repo_topics_passthrough :
  (forall (d : dict) (v : pyval) (w : world),
      dict_lookup "topics" d = Some v ->
      exists out w',
        _transform_repo (VDict d) w = (Ok (VDict out), w')
        /\ dict_lookup "topics" out = Some v)
  /\ (forall w, exists d out w',
        dict_lookup "topics" d = Some VNone
        /\ _transform_repo (VDict d) w = (Ok (VDict out), w')
        /\ dict_lookup "topics" out = Some VNone).
Proof.
  assert (P : forall (d : dict) (v : pyval) (w : world),
      dict_lookup "topics" d = Some v ->
      exists out w',
        _transform_repo (VDict d) w = (Ok (VDict out), w')
        /\ dict_lookup "topics" out = Some v).
  { intros d v w H. rewrite transform_repo_dict.
    eexists. eexists. split; [reflexivity |].
    simpl. unfold dict_get_default. now rewrite H. }
  split; [exact P |].
  intros w. exists [("name", VStr "beta"); ("topics", VNone)].
  destruct (P [("name", VStr "beta"); ("topics", VNone)] VNone w eq_refl)
    as (out & w' & E & T).
  exists out, w'. auto.
Qed.

End TransformFacts.

(** *** Resolving the credential *)

Section ResolverFacts.
Context {svc : Services}.

Lemma str_truthy_iff (s : string) : str_truthy s = true <-> s <> EmptyString.
Proof. destruct s; simpl; split; congruence. Qed.

Lemma str_truthy_false_iff (s : string) :
  str_truthy s = false <-> s = EmptyString.
Proof. destruct s; simpl; split; congruence. Qed.

Lemma startswith_brace_truthy (s : string) :
  startswith s "{" = true -> str_truthy s = true.
Proof. destruct s; simpl; [discriminate | reflexivity]. Qed.

(** The outcome of a call that finds the cache empty, by cases on the
    answer of the backend. *)
Lemma load_token_cold arn w :
  _cached_secret w = None ->
  fst (_load_token arn w)
  = match next_secret arn w with
    | SecretsRaise msg => Raise (ClientError msg)
    | SecretsResponse None => Raise (RuntimeError secret_missing_msg)
    | SecretsResponse (Some s) =>
        if negb (str_truthy s) then Raise (RuntimeError secret_missing_msg)
        else if negb (str_truthy (strip s))
             then Raise (RuntimeError secret_empty_msg)
             else token_from_secret (strip s)
    end.
Proof.
  intros Hc. rewrite (load_token_miss arn w Hc).
  unfold resolve_secret, bind, call_get_secret_value, next_secret.
  destruct (get_secret_value (length (secrets_calls w)) arn) as [e | [s |]];
    simpl; trivial.
  destruct (str_truthy s); simpl; trivial.
  destruct (str_truthy (strip s)); simpl; trivial.
  unfold lift. destruct (token_from_secret (strip s)); reflexivity.
Qed.

Lemma strip_truthy_source (s : string) :
  str_truthy (strip s) = true -> str_truthy s = true.
Proof. destruct s; simpl; [discriminate | reflexivity]. Qed.

(** C6.  When the cache is empty and the backend returns a payload whose
    trimmed form is not empty and does not start with an opening brace,
    [_load_token] returns the trimmed payload. *)
Theorem plain_secret_returned_trimmed (arn : string) (w : world) (s : string) :
  _cached_secret w = None ->
  next_secret arn w = SecretsResponse (Some s) ->
  strip s <> EmptyString ->
  startswith (strip s) "{" = false ->
  fst (_load_token arn w) = Ok (strip s).
Proof.
  intros Hc Hr Hs Hb. rewrite (load_token_cold arn w Hc), Hr.
  apply str_truthy_iff in Hs.
  rewrite (strip_truthy_source s Hs), Hs. simpl.
  unfold token_from_secret. now rewrite Hb.
Qed.

Lemma first_token_split (values : list pyval) (t : string) :
  first_token values = Some t <->
  exists before v after,
    values = before ++ v :: after
    /\ Forall (fun u => token_of u = None) before
    /\ token_of v = Some t.
Proof.
  split.
  - induction values as [| v values IH]; simpl; [discriminate |].
    destruct (token_of v) as [t' |] eqn:E.
    + intros [= ->]. exists [], v, values. auto.
    + intros H. destruct (IH H) as (before & u & after & -> & Hb & Hu).
      exists (v :: before), u, after. auto.
  - intros (before & v & after & -> & Hb & Hv).
    induction Hb as [| u before Hu _ IH]; simpl.
    + now rewrite Hv.
    + now rewrite Hu.
Qed.

Lemma token_of_str (s : string) :
  strip s <> EmptyString -> token_of (VStr s) = Some (strip s).
Proof.
  intros H. simpl. apply str_truthy_iff in H. now rewrite H.
Qed.

(** C5 (amended).  When the trimmed payload parses as a mapping (it then
    starts with an opening brace, which is what sends [_load_token] to the
    parser), the keys
    token, Token, PAT, pat, github_token, githubToken, value are tried in
    that order and the first one whose value is a string that is not empty
    once trimmed gives the credential, which is that value trimmed; so when
    both ["token"] and ["pat"] hold such strings, the trimmed value of
    ["token"] is returned. *)
Theorem json_secret_key_priority
  (arn : string) (w : world) (s : string) (d : dict) :
  _cached_secret w = None ->
  next_secret arn w = SecretsResponse (Some s) ->
  startswith (strip s) "{" = true ->
  json_loads (strip s) = Some (VDict d) ->
  (forall before key after v,
      token_keys = before ++ key :: after ->
      Forall (fun k => token_of (dict_get d k) = None) before ->
      dict_get d key = VStr v -> strip v <> EmptyString ->
      fst (_load_token arn w) = Ok (strip v))
  /\ (forall t p,
        dict_lookup "token" d = Some (VStr t) -> strip t <> EmptyString ->
        dict_lookup "pat" d = Some (VStr p) -> strip p <> EmptyString ->
        fst (_load_token arn w) = Ok (strip t)).
Proof.
  intros Hc Hr Hb Hj.
  assert (P : forall before key after v,
      token_keys = before ++ key :: after ->
      Forall (fun k => token_of (dict_get d k) = None) before ->
      dict_get d key = VStr v -> strip v <> EmptyString ->
      fst (_load_token arn w) = Ok (strip v)).
  { intros before key after v Hk Hbefore Hv Hne.
    rewrite (load_token_cold arn w Hc), Hr.
    assert (Ht := startswith_brace_truthy _ Hb).
    rewrite (strip_truthy_source s Ht), Ht. simpl.
    unfold token_from_secret. rewrite Hb, Hj. unfold candidate_value.
    assert (F : first_token (map (dict_get d) token_keys) = Some (strip v)).
    { apply first_token_split.
      exists (map (dict_get d) before), (dict_get d key),
             (map (dict_get d) after).
      rewrite Hk, map_app. simpl. split; [reflexivity |]. split.
      - now apply Forall_map.
      - rewrite Hv. now apply token_of_str. }
    now rewrite F. }
  split; [exact P |].
  intros t p Ht Hne _ _.
  apply (P [] "token" ["Token"; "PAT"; "pat"; "github_token"; "githubToken";
                       "value"] t); auto.
  unfold dict_get. now rewrite Ht.
Qed.

Lemma missing_empty_distinct : secret_missing_msg <> secret_empty_msg.
Proof. discriminate. Qed.

Lemma token_from_secret_cases (secret_value : string) :
  (exists t, token_from_secret secret_value = Ok t)
  \/ token_from_secret secret_value = Raise (RuntimeError secret_json_no_token_msg)
     /\ startswith secret_value "{" = true
     /\ exists payload, json_loads secret_value = Some payload
                        /\ candidate_value payload = None.
Proof.
  unfold token_from_secret.
  destruct (startswith secret_value "{"); [| eauto].
  destruct (json_loads secret_value) as [payload |]; [| eauto].
  destruct (candidate_value payload) eqn:E; eauto 10.
Qed.

Ltac unpack :=
  intros;
  repeat match goal with
         | H : _ \/ _ |- _ => destruct H
         | H : exists _, _ |- _ => destruct H
         | H : _ /\ _ |- _ => destruct H
         | H : SecretsResponse (Some _) = SecretsResponse (Some _) |- _ =>
             injection H as H; try subst
         end;
  try congruence; try discriminate.

(** C7 (amended).  On an empty cache, with [reply] the answer of the
    backend: [_load_token] raises the missing-payload error exactly when
    the response has no ["SecretString"] or an empty one; the empty-secret
    error exactly when the payload is not empty but its trimmed form is;
    the no-token error exactly when the trimmed payload starts with an
    opening brace, parses as JSON and the search finds no candidate; and a
    trimmed payload that starts with an opening brace and does not parse
    is returned as the token. *)
Theorem load_token_errors (arn : string) (w : world) :
  _cached_secret w = None ->
  let reply := next_secret arn w in
  let outcome := fst (_load_token arn w) in
  (outcome = Raise (RuntimeError secret_missing_msg) <->
     reply = SecretsResponse None \/ reply = SecretsResponse (Some EmptyString))
  /\ (outcome = Raise (RuntimeError secret_empty_msg) <->
        exists s, reply = SecretsResponse (Some s)
                  /\ s <> EmptyString /\ strip s = EmptyString)
  /\ (outcome = Raise (RuntimeError secret_json_no_token_msg) <->
        exists s payload,
          reply = SecretsResponse (Some s)
          /\ startswith (strip s) "{" = true
          /\ json_loads (strip s) = Some payload
          /\ candidate_value payload = None)
  /\ (forall s,
        reply = SecretsResponse (Some s) ->
        startswith (strip s) "{" = true ->
        json_loads (strip s) = None ->
        outcome = Ok (strip s)).
Proof.
  intros Hc reply outcome. subst reply outcome.
  rewrite (load_token_cold arn w Hc).
  destruct (next_secret arn w) as [msg | [s |]].
  - repeat split; unpack.
  - destruct (str_truthy s) eqn:Ts; simpl.
    + assert (Hs : s <> EmptyString) by now apply str_truthy_iff.
      destruct (str_truthy (strip s)) eqn:Tt; simpl.
      * assert (Ht : strip s <> EmptyString) by now apply str_truthy_iff.
        destruct (token_from_secret_cases (strip s))
          as [(t & E) | (E & Hb & payload & Hj & Hn)]; rewrite E.
        -- repeat split; unpack.
           all: revert E; unfold token_from_secret.
           all: repeat match goal with
                       | H : _ = _ |- _ => rewrite H
                       end; congruence.
        -- repeat split; unpack; eauto 8.
      * apply str_truthy_false_iff in Tt.
        repeat split; unpack; eauto.
        all: match goal with
             | H : startswith (strip _) _ = true |- _ =>
                 rewrite Tt in H; discriminate
             end.
    + apply str_truthy_false_iff in Ts. subst s.
      repeat split; unpack; auto.
  - repeat split; unpack; auto.
Qed.

End ResolverFacts.

(** *** The remote client *)

Lemma string_of_uint_digits (d : Decimal.uint) :
  all_digits (NilEmpty.string_of_uint d) = true.
Proof. induction d; simpl; auto. Qed.

Lemma str_of_N_digits (n : N) : all_digits (str_of_N n) = true.
Proof.
  unfold str_of_N, NilZero.string_of_uint.
  destruct (N.to_uint n); try apply string_of_uint_digits. reflexivity.
Qed.

Lemma str_of_N_inj (n m : N) : str_of_N n = str_of_N m -> n = m.
Proof.
  unfold str_of_N. intros H. apply DecimalN.Unsigned.to_uint_inj.
  apply (f_equal NilZero.uint_of_string) in H.
  assert (N0 : forall k, N.to_uint k <> Decimal.Nil).
  { intros [| p]; simpl; [discriminate |].
    apply DecimalPos.Unsigned.to_uint_nonnil. }
  rewrite !NilZero.usu in H by apply N0.
  congruence.
Qed.

(** A run of digits followed by a colon can be cut in one way only. *)
Lemma digits_colon_unique (a b x y : string) :
  all_digits a = true -> all_digits b = true ->
  (a ++ ": " ++ x)%string = (b ++ ": " ++ y)%string -> a = b /\ x = y.
Proof.
  revert b. induction a as [| c a IH]; intros [| c' b] Ha Hb H; simpl in *.
  - injection H as H. auto.
  - injection H as <- _. discriminate.
  - injection H as -> _. discriminate.
  - injection H as -> H.
    apply andb_prop in Ha, Hb.
    destruct (IH b (proj2 Ha) (proj2 Hb) H) as [-> ->]. auto.
Qed.

(** The message of the HTTP error determines the status code and the body. *)
Lemma http_error_msg_inj (code code' : N) (body body' : string) :
  http_error_msg code body = http_error_msg code' body' ->
  code = code' /\ body = body'.
Proof.
  unfold http_error_msg. intros H. simpl in H.
  repeat (injection H as H).
  apply digits_colon_unique in H; try apply str_of_N_digits.
  destruct H as [H ->]. split; [now apply str_of_N_inj | reflexivity].
Qed.

Section ClientFacts.
Context {svc : Services}.

(** C9.  When the final response to the request has a status outside
    200-299, [_github_request] raises the HTTP error whose message is made
    of that status code and of the body of the response; the message
    determines both. *)
Theorem http_error_carries_status
  (url token : string) (w : world) (status : N) (text : string) :
  next_response url token w = FinalResponse status text ->
  ~ (200 <= status < 300)%N ->
  fst (_github_request url token w)
  = Raise (RuntimeError (http_error_msg status text))
  /\ (forall status' text',
        http_error_msg status' text' = http_error_msg status text ->
        status' = status /\ text' = text).
Proof.
  intros Hr Hs. split; [| intros; now apply http_error_msg_inj].
  unfold _github_request, bind, call_urlopen. fold (next_response url token w).
  rewrite Hr. unfold urlopen_outcome.
  destruct ((200 <=? status) && (status <? 300))%N eqn:E; [| reflexivity].
  apply andb_prop in E. destruct E as [E1 E2].
  apply N.leb_le in E1. apply N.ltb_lt in E2. lia.
Qed.

End ClientFacts.

(** *** The orchestrator *)

Section HandlerFacts.
Context {svc : Services}.

Lemma load_token_keeps_sink arn w :
  s3_objects (snd (_load_token arn w)) = s3_objects w.
Proof.
  assert (R : s3_objects (snd (resolve_secret arn w)) = s3_objects w).
  { assert (E := resolve_secret_effect arn w).
    destruct (resolve_secret arn w) as [r w']. simpl. tauto. }
  unfold _load_token, bind, get_cached_secret.
  destruct (_cached_secret w) as [c |]; [| exact R].
  destruct (str_truthy c); [reflexivity | exact R].
Qed.

Lemma github_request_keeps_sink url token w :
  s3_objects (snd (_github_request url token w)) = s3_objects w.
Proof.
  unfold _github_request, bind, call_urlopen.
  destruct (urlopen_outcome _) as [payload | code body | reason | e];
    try reflexivity.
  destruct (json_loads payload); reflexivity.
Qed.

Lemma transform_repo_keeps_sink raw w :
  s3_objects (snd (_transform_repo raw w)) = s3_objects w.
Proof.
  destruct raw as [| | | | |d]; [reflexivity .. |].
  now rewrite transform_repo_dict.
Qed.

Lemma mapM_transform_keeps_sink repos : forall w,
  s3_objects (snd (mapM _transform_repo repos w)) = s3_objects w.
Proof.
  induction repos as [| raw repos IH]; intros w; simpl; trivial.
  unfold bind. assert (T := transform_repo_keeps_sink raw w).
  destruct (_transform_repo raw w) as [[y | e] w1]; simpl in *; trivial.
  specialize (IH w1).
  destruct (mapM _transform_repo repos w1) as [[ys | e] w2]; simpl in *;
    congruence.
Qed.

Lemma build_payload_keeps_sink repos w :
  s3_objects (snd (build_payload repos w)) = s3_objects w.
Proof.
  unfold build_payload, bind, utcnow.
  match goal with
  | |- context [mapM _transform_repo repos ?w1] =>
      assert (T := mapM_transform_keeps_sink repos w1);
      destruct (mapM _transform_repo repos w1) as [[ys | e] w2]
  end; simpl in *; exact T.
Qed.

(** [put_to_s3] stores one object, or raises and stores nothing. *)
Lemma put_to_s3_effect bucket key payload w :
  let (r, w') := put_to_s3 bucket key payload w in
  match r with
  | Ok _ =>
      s3_objects w'
      = s3_objects w
        ++ [mkPut bucket key (json_dumps payload) "application/json"
                  "no-cache, no-store, must-revalidate"]
  | Raise _ => s3_objects w' = s3_objects w
  end.
Proof.
  unfold put_to_s3, call_put_object.
  destruct (put_object _ _); reflexivity.
Qed.

Lemma lambda_handler_configured event context w username bucket arn limit :
  environ "GITHUB_USERNAME" = Some username ->
  environ "SITE_BUCKET_NAME" = Some bucket ->
  environ "GITHUB_TOKEN_SECRET_ARN" = Some arn ->
  py_int (environ_get "REPO_LIMIT" "5") = Ok limit ->
  lambda_handler event context w
  = pipeline username bucket (environ_get "PROJECTS_OBJECT_KEY" "projects.json")
             arn limit w.
Proof.
  intros Hu Hb Ha Hl. unfold lambda_handler, environ_item.
  rewrite Hu, Hb, Ha, Hl. reflexivity.
Qed.

(** A handler that raises has stored nothing. *)
Lemma lambda_handler_raise_keeps_sink event context w e w' :
  lambda_handler event context w = (Raise e, w') ->
  s3_objects w' = s3_objects w.
Proof.
  unfold lambda_handler, environ_item, bind, ret, raise, lift.
  destruct (environ "GITHUB_USERNAME"); [| now intros [= _ <-]].
  destruct (environ "SITE_BUCKET_NAME"); [| now intros [= _ <-]].
  destruct (environ "GITHUB_TOKEN_SECRET_ARN") as [arn |]; [| now intros [= _ <-]].
  destruct (py_int _) as [limit |]; [| now intros [= _ <-]].
  assert (L := load_token_keeps_sink arn w).
  destruct (_load_token arn w) as [[token |] w1]; simpl in L;
    [| intros [= _ <-]; exact L].
  match goal with
  | |- context [_github_request ?u token w1] =>
      assert (G := github_request_keeps_sink u token w1);
      destruct (_github_request u token w1) as [[v |] w2]
  end; simpl in G; [| intros [= _ <-]; congruence].
  destruct v as [| | | | repos |]; try (intros [= _ <-]; congruence).
  destruct (sort_and_truncate repos limit) as [top |];
    [| intros [= _ <-]; congruence].
  assert (B := build_payload_keeps_sink top w2).
  destruct (build_payload top w2) as [[payload |] w3]; simpl in B;
    [| intros [= _ <-]; congruence].
  match goal with
  | |- context [put_to_s3 ?b ?k payload w3] =>
      assert (P := put_to_s3_effect b k payload w3);
      destruct (put_to_s3 b k payload w3) as [[u |] w4]
  end; [discriminate |].
  intros [= _ <-]. congruence.
Qed.

Ltac five := split; [| split; [| split; [| split]]].

(** C8.  Once the configuration has been read: an exception raised by
    [_load_token], by [_github_request] or by the check that the payload is
    a list is the exception raised by [lambda_handler], and the sink holds
    what it held before; whenever the handler raises, the sink is
    unchanged; and if the sink has changed then the token was resolved, the
    list fetched, sorted and truncated and the payload built, all without an
    exception, and the one object added is that payload. *)
Theorem failures_write_nothing
  (event context : pyval) (w : world)
  (username bucket arn : string) (limit : Z) :
  environ "GITHUB_USERNAME" = Some username ->
  environ "SITE_BUCKET_NAME" = Some bucket ->
  environ "GITHUB_TOKEN_SECRET_ARN" = Some arn ->
  py_int (environ_get "REPO_LIMIT" "5") = Ok limit ->
  let key := environ_get "PROJECTS_OBJECT_KEY" "projects.json" in
  let (r, w') := lambda_handler event context w in
  (forall e w1,
      _load_token arn w = (Raise e, w1) ->
      r = Raise e /\ s3_objects w' = s3_objects w)
  /\ (forall token w1 e w2,
        _load_token arn w = (Ok token, w1) ->
        _github_request (api_url username) token w1 = (Raise e, w2) ->
        r = Raise e /\ s3_objects w' = s3_objects w)
  /\ (forall token w1 v w2,
        _load_token arn w = (Ok token, w1) ->
        _github_request (api_url username) token w1 = (Ok v, w2) ->
        (forall items, v <> VList items) ->
        r = Raise (RuntimeError unexpected_payload_msg)
        /\ s3_objects w' = s3_objects w)
  /\ ((exists e, r = Raise e) -> s3_objects w' = s3_objects w)
  /\ (s3_objects w' <> s3_objects w ->
      exists token w1 repos w2 top_repos payload w3,
        _load_token arn w = (Ok token, w1)
        /\ _github_request (api_url username) token w1 = (Ok (VList repos), w2)
        /\ sort_and_truncate repos limit = Ok top_repos
        /\ build_payload top_repos w2 = (Ok payload, w3)
        /\ s3_objects w'
           = s3_objects w
             ++ [mkPut bucket key (json_dumps payload) "application/json"
                       "no-cache, no-store, must-revalidate"]).
Proof.
  intros Hu Hb Ha Hl key.
  destruct (lambda_handler event context w) as [r w'] eqn:H.
  assert (Hraise : (exists e, r = Raise e) -> s3_objects w' = s3_objects w).
  { intros [e ->]. eapply lambda_handler_raise_keeps_sink. exact H. }
  rewrite (lambda_handler_configured event context w Hu Hb Ha Hl) in H.
  fold key in H. unfold pipeline, bind, lift, ret, raise in H.
  assert (L := load_token_keeps_sink arn w).
  destruct (_load_token arn w) as [[token | e] w1] eqn:EL; simpl in L.
  2:{ injection H as <- <-. five.
      - intros ? ? [= <- <-]. auto.
      - intros ? ? ? ? [= ]. 
      - intros ? ? ? ? [= ].
      - exact Hraise.
      - congruence. }
  assert (G := github_request_keeps_sink (api_url username) token w1).
  destruct (_github_request (api_url username) token w1) as [[v | e] w2] eqn:EG;
    simpl in G.
  2:{ injection H as <- <-. five.
      - intros ? ? [= ].
      - intros ? ? ? ? [= <- <-]. rewrite EG. intros [= <- <-].
        split; congruence.
      - intros ? ? ? ? [= <- <-]. rewrite EG. intros [= ].
      - exact Hraise.
      - congruence. }
  five.
  - intros ? ? [= ].
  - intros ? ? ? ? [= <- <-]. rewrite EG. intros [= ].
  - intros ? ? ? ? [= <- <-]. rewrite EG. intros [= <- <-] Hv.
    destruct v as [| | | | repos |];
      try (injection H as <- <-; split; congruence).
    exfalso. eapply Hv. reflexivity.
  - exact Hraise.
  - intros Hne.
    destruct v as [| | | | repos |]; try (injection H as <- <-; congruence).
    destruct (sort_and_truncate repos limit) as [top |] eqn:ES;
      [| injection H as <- <-; congruence].
    assert (B := build_payload_keeps_sink top w2).
    destruct (build_payload top w2) as [[payload | e] w3] eqn:EB; simpl in B;
      [| injection H as <- <-; congruence].
    assert (P := put_to_s3_effect bucket key payload w3).
    destruct (put_to_s3 bucket key payload w3) as [[u | e] w4];
      injection H as <- <-; [| congruence].
    exists token, w1, repos, w2, top, payload, w3.
    repeat (split; [first [reflexivity | assumption] |]).
    rewrite P. congruence.
Qed.

End HandlerFacts.

(* ================================================================== *)
(** ** The theorems at work on the sample services *)

Example plain_run :
  fst (@lambda_handler svc_plain VNone VNone initial_world)
  = Ok (VDict [ ("status", VStr "ok"); ("bucket", VStr "site-bucket");
                ("key", VStr "projects.json"); ("count", VInt 2) ]).
Proof. vm_compute. reflexivity. Qed.

Lemma plain_secret_returned_trimmed_witness :
  _cached_secret initial_world = None
  /\ @next_secret svc_plain "arn:github-token" initial_world
     = SecretsResponse (Some plain_secret)
  /\ strip plain_secret <> EmptyString
  /\ startswith (strip plain_secret) "{" = false
  /\ fst (@_load_token svc_plain "arn:github-token" initial_world)
     = Ok "ghp_plain".
Proof.
  assert (H : strip plain_secret <> EmptyString) by (vm_compute; discriminate).
  split; [reflexivity |]. split; [reflexivity |]. split; [exact H |].
  split; [reflexivity |].
  exact (@plain_secret_returned_trimmed svc_plain "arn:github-token"
           initial_world plain_secret eq_refl eq_refl H eq_refl).
Defined.

(** C5 (as stated, refuted).  The mapping holds a non-empty string under
    ["token"] and one under ["pat"]; the value of ["token"] is a blank, the
    search passes over it, and the credential is the value of ["pat"]. *)
Lemma blank_token_is_passed_over :
  @json_loads svc_blank_token (strip blank_token_secret)
  = Some (VDict blank_token)
  /\ dict_lookup "token" blank_token = Some (VStr " ")
  /\ dict_lookup "pat" blank_token = Some (VStr "abc")
  /\ " " <> EmptyString
  /\ fst (@_load_token svc_blank_token "arn:github-token" initial_world)
     = Ok "abc"
  /\ fst (@_load_token svc_blank_token "arn:github-token" initial_world)
     <> Ok " ".
Proof.
  repeat split; try (vm_compute; reflexivity); vm_compute; discriminate.
Qed.

Lemma json_secret_key_priority_witness :
  _cached_secret initial_world = None
  /\ @next_secret svc_both_keys "arn:github-token" initial_world
     = SecretsResponse (Some both_keys_secret)
  /\ startswith (strip both_keys_secret) "{" = true
  /\ @json_loads svc_both_keys (strip both_keys_secret) = Some (VDict both_keys)
  /\ fst (@_load_token svc_both_keys "arn:github-token" initial_world)
     = Ok "t-456".
Proof.
  assert (J : @json_loads svc_both_keys (strip both_keys_secret)
              = Some (VDict both_keys)) by (vm_compute; reflexivity).
  assert (B : startswith (strip both_keys_secret) "{" = true)
    by (vm_compute; reflexivity).
  split; [reflexivity |]. split; [reflexivity |]. split; [exact B |].
  split; [exact J |].
  refine (proj2 (@json_secret_key_priority svc_both_keys "arn:github-token"
                   initial_world both_keys_secret both_keys
                   eq_refl eq_refl B J)
                " t-456 " "p-123" eq_refl _ eq_refl _);
    vm_compute; discriminate.
Defined.

(** C7 (as stated, refuted).  The backend returns a string payload, the
    empty one: its trimmed form has length zero, and the error raised is
    the missing-payload error, not the empty-secret error. *)
Lemma empty_payload_reported_missing :
  @next_secret svc_empty_payload "arn:github-token" initial_world
  = SecretsResponse (Some EmptyString)
  /\ String.length (strip EmptyString) = 0
  /\ fst (@_load_token svc_empty_payload "arn:github-token" initial_world)
     = Raise (RuntimeError secret_missing_msg)
  /\ fst (@_load_token svc_empty_payload "arn:github-token" initial_world)
     <> Raise (RuntimeError secret_empty_msg).
Proof.
  repeat split; try (vm_compute; reflexivity); vm_compute; discriminate.
Qed.

Lemma load_token_errors_witness :
  _cached_secret initial_world = None
  /\ (let reply := @next_secret svc_blank_payload "arn:github-token"
                                initial_world in
      let outcome := fst (@_load_token svc_blank_payload "arn:github-token"
                                       initial_world) in
      (outcome = Raise (RuntimeError secret_missing_msg) <->
         reply = SecretsResponse None
         \/ reply = SecretsResponse (Some EmptyString))
      /\ (outcome = Raise (RuntimeError secret_empty_msg) <->
            exists s, reply = SecretsResponse (Some s)
                      /\ s <> EmptyString /\ strip s = EmptyString)
      /\ (outcome = Raise (RuntimeError secret_json_no_token_msg) <->
            exists s payload,
              reply = SecretsResponse (Some s)
              /\ startswith (strip s) "{" = true
              /\ @json_loads svc_blank_payload (strip s) = Some payload
              /\ @candidate_value payload = None)
      /\ (forall s,
            reply = SecretsResponse (Some s) ->
            startswith (strip s) "{" = true ->
            @json_loads svc_blank_payload (strip s) = None ->
            outcome = Ok (strip s))).
Proof.
  split; [reflexivity |].
  exact (@load_token_errors svc_blank_payload "arn:github-token"
           initial_world eq_refl).
Defined.

Example blank_payload_reported_empty :
  fst (@_load_token svc_blank_payload "arn:github-token" initial_world)
  = Raise (RuntimeError secret_empty_msg).
Proof. reflexivity. Qed.

Lemma http_error_carries_status_witness :
  @next_response svc_not_found (api_url "chrism202") "ghp_plain" initial_world
  = FinalResponse 404 "Not Found"
  /\ ~ (200 <= 404 < 300)%N
  /\ fst (@_github_request svc_not_found (api_url "chrism202") "ghp_plain"
            initial_world)
     = Raise (RuntimeError "GitHub API error 404: Not Found").
Proof.
  assert (H : ~ (200 <= 404 < 300)%N) by lia.
  split; [reflexivity |]. split; [exact H |].
  exact (proj1 (@http_error_carries_status svc_not_found
                  (api_url "chrism202") "ghp_plain" initial_world
                  404%N "Not Found" eq_refl H)).
Defined.

Lemma failures_write_nothing_witness :
  @environ svc_not_found "GITHUB_USERNAME" = Some "chrism202"
  /\ @environ svc_not_found "SITE_BUCKET_NAME" = Some "site-bucket"
  /\ @environ svc_not_found "GITHUB_TOKEN_SECRET_ARN" = Some "arn:github-token"
  /\ py_int (@environ_get svc_not_found "REPO_LIMIT" "5") = Ok 2%Z
  /\ fst (@lambda_handler svc_not_found VNone VNone initial_world)
     = Raise (RuntimeError "GitHub API error 404: Not Found")
  /\ s3_objects (snd (@lambda_handler svc_not_found VNone VNone initial_world))
     = s3_objects initial_world.
Proof.
  split; [reflexivity |]. split; [reflexivity |]. split; [reflexivity |].
  split; [reflexivity |].
  assert (T := @failures_write_nothing svc_not_found VNone VNone initial_world
                 "chrism202" "site-bucket" "arn:github-token" 2%Z
                 eq_refl eq_refl eq_refl eq_refl).
  cbv zeta in T.
  destruct (@lambda_handler svc_not_found VNone VNone initial_world)
    as [r w'] eqn:E.
  destruct T as (_ & T & _).
  exact (T "ghp_plain"
           (snd (@_load_token svc_not_found "arn:github-token" initial_world))
           (RuntimeError "GitHub API error 404: Not Found")
           (snd (@_github_request svc_not_found (api_url "chrism202")
                   "ghp_plain"
                   (snd (@_load_token svc_not_found "arn:github-token"
                           initial_world))))
           eq_refl eq_refl).
Defined.

(* ================================================================== *)
(** ** Further properties of the sort and the truncation *)

Section SortAnyKeys.
Variable A : Type.
Implicit Types (x y : pyval * A) (s l r : list (pyval * A)).

Lemma insert_permutation x s r :
  insert x s = Ok r -> Permutation (x :: s) r.
Proof.
  revert r. induction s as [| y s IH]; simpl; intros r.
  - intros [= <-]. reflexivity.
  - destruct (py_lt (fst y) (fst x)) as [[|] | e]; simpl; try discriminate.
    + destruct (insert x s) as [r' | e]; simpl; [| discriminate].
      intros [= <-]. rewrite perm_swap. constructor. now apply IH.
    + intros [= <-]. reflexivity.
Qed.

Lemma sort_keyed_permutation l r :
  sort_keyed l = Ok r -> Permutation l r.
Proof.
  revert r. induction l as [| x l IH]; simpl; intros r.
  - intros [= <-]. constructor.
  - destruct (sort_keyed l) as [s | e]; simpl; [| discriminate].
    intros H. apply insert_permutation in H.
    etransitivity; [| exact H]. constructor. now apply IH.
Qed.

Lemma decorate_snd (key : A -> result pyval) (l : list A) k :
  decorate key l = Ok k -> map snd k = l /\ Forall (fun a => exists v, key a = Ok v) l.
Proof.
  revert k. induction l as [| a l IH]; simpl; intros k.
  - intros [= <-]. auto.
  - destruct (key a) as [v | e] eqn:E; simpl; [| discriminate].
    destruct (decorate key l) as [k' | e]; simpl; [| discriminate].
    intros [= <-]. destruct (IH k' eq_refl) as [Hm F]. simpl.
    rewrite Hm. split; [reflexivity |]. constructor; eauto.
Qed.

(** Whatever the keys, a sort that returns has rearranged its input. *)
Lemma sorted_permutation (key : A -> result pyval) (reverse : bool)
  (l out : list A) :
  sorted l key reverse = Ok out ->
  Permutation l out /\ Forall (fun a => exists v, key a = Ok v) l.
Proof.
  unfold sorted.
  destruct (decorate key l) as [k | e] eqn:D; simpl; [| discriminate].
  destruct (decorate_snd key l D) as [Hk F].
  destruct (sort_keyed (if reverse then rev k else k)) as [s | e] eqn:S;
    simpl; [| discriminate].
  intros [= <-]. split; [| exact F].
  apply sort_keyed_permutation in S. rewrite <- Hk.
  destruct reverse.
  - rewrite map_rev, <- Permutation_rev.
    apply Permutation_map. rewrite <- S. apply Permutation_rev.
  - now apply Permutation_map.
Qed.

End SortAnyKeys.

Lemma slice_to_length (A : Type) (l : list A) (stop : Z) :
  length (slice_to l stop)
  = if (0 <=? stop)%Z then Nat.min (Z.to_nat stop) (length l)
    else length l - Z.to_nat (- stop).
Proof.
  unfold slice_to. destruct (0 <=? stop)%Z eqn:E.
  - apply length_firstn.
  - rewrite length_firstn. apply Z.leb_gt in E. lia.
Qed.

Lemma slice_to_incl (A : Type) (l : list A) (stop : Z) (a : A) :
  In a (slice_to l stop) -> In a l.
Proof.
  assert (F : forall n, In a (firstn n l) -> In a l).
  { intros n H. rewrite <- (firstn_skipn n l). apply in_or_app. now left. }
  unfold slice_to. destruct (0 <=? stop)%Z; apply F.
Qed.

Lemma pushed_at_key_dict (r : pyval) (v : pyval) :
  pushed_at_key r = Ok v -> exists d, r = VDict d.
Proof.
  destruct r; try discriminate. eauto.
Qed.

(** X1.  The number of records kept, for every limit.  A limit that is not
    negative keeps that many records, or all of them when there are fewer;
    a negative limit [-n] drops the last [n] records of the sorted list. *)
Theorem truncation_length (repos top_repos : list pyval) (repo_limit : Z) :
  sort_and_truncate repos repo_limit = Ok top_repos ->
  length top_repos
  = if (0 <=? repo_limit)%Z
    then Nat.min (Z.to_nat repo_limit) (length repos)
    else length repos - Z.to_nat (- repo_limit).
Proof.
  unfold sort_and_truncate.
  destruct (sorted repos pushed_at_key true) as [s | e] eqn:E; simpl;
    [| discriminate].
  intros [= <-]. rewrite slice_to_length.
  destruct (sorted_permutation _ _ _ E) as [P _].
  now rewrite (Permutation_length P).
Qed.

Lemma truncation_length_witness :
  sort_and_truncate four_repos (-1)
  = Ok [repo_2024; repo_2023; repo_2023_bis]
  /\ length [repo_2024; repo_2023; repo_2023_bis]
     = length four_repos - Z.to_nat (- (-1)).
Proof.
  split; [reflexivity |].
  exact (@truncation_length four_repos [repo_2024; repo_2023; repo_2023_bis]
           (-1) eq_refl).
Defined.

Lemma StronglySorted_app_inv (A : Type) (R : A -> A -> Prop) (l1 l2 : list A) :
  StronglySorted R (l1 ++ l2) ->
  forall a b, In a l1 -> In b l2 -> R a b.
Proof.
  induction l1 as [| x l1 IH]; simpl; intros SS a b Ha Hb; [contradiction |].
  apply StronglySorted_inv in SS. destruct SS as [SS Hd].
  destruct Ha as [<- | Ha].
  - rewrite Forall_forall in Hd. apply Hd, in_or_app. now right.
  - now apply IH.
Qed.

(** X2.  The records kept are the most recently pushed ones.  On records
    whose last-push field is a string or missing and with a limit that is
    not negative, the fetched list splits into the records kept and the
    records dropped, and no record dropped was pushed later than a record
    kept. *)
Theorem kept_records_are_newest (repos : list pyval) (repo_limit : Z) :
  Forall (fun r => timestamped r = true) repos ->
  (0 <= repo_limit)%Z ->
  exists top_repos dropped,
    sort_and_truncate repos repo_limit = Ok top_repos
    /\ Permutation repos (top_repos ++ dropped)
    /\ length top_repos = Nat.min (Z.to_nat repo_limit) (length repos)
    /\ (forall a b, In a top_repos -> In b dropped -> not_older a b).
Proof.
  intros Hr Hl.
  destruct (sorted_timestamped Hr) as (out & E & P & S & _).
  exists (firstn (Z.to_nat repo_limit) out), (skipn (Z.to_nat repo_limit) out).
  assert (Hs : slice_to out repo_limit = firstn (Z.to_nat repo_limit) out).
  { unfold slice_to. apply Z.leb_le in Hl. now rewrite Hl. }
  unfold sort_and_truncate. rewrite E. simpl. rewrite Hs.
  split; [reflexivity |]. rewrite firstn_skipn. split; [exact P |].
  split.
  - rewrite length_firstn. now rewrite (Permutation_length P).
  - apply StronglySorted_app_inv. now rewrite firstn_skipn.
Qed.

Lemma kept_records_are_newest_witness :
  Forall (fun r => timestamped r = true) four_repos
  /\ (0 <= 2)%Z
  /\ exists top_repos dropped,
       sort_and_truncate four_repos 2 = Ok top_repos
       /\ Permutation four_repos (top_repos ++ dropped)
       /\ length top_repos = Nat.min (Z.to_nat 2) (length four_repos)
       /\ (forall a b, In a top_repos -> In b dropped -> not_older a b).
Proof.
  assert (H : Forall (fun r => timestamped r = true) four_repos)
    by (repeat constructor).
  assert (L : (0 <= 2)%Z) by lia.
  split; [exact H |]. split; [exact L |].
  exact (@kept_records_are_newest four_repos 2 H L).
Defined.

(** *** When the sort raises *)

(** [py_lt] raises nothing but the [TypeError] of [<]. *)
Lemma py_lt_raise : forall (a b : pyval) (e : exn),
  py_lt a b = Raise e -> e = not_supported.
Proof.
  fix IH 1. intros a b e.
  destruct a as [| ba | za | sa | la | da]; destruct b as [| bb | zb | sb | lb | db];
    simpl; try congruence.
  revert lb. induction la as [| x la IHl]; intros [| y lb]; try congruence.
  destruct (py_eq x y).
  - apply IHl.
  - apply IH.
Qed.

Lemma py_lt_none_left (b : pyval) : py_lt VNone b = Raise not_supported.
Proof. destruct b; reflexivity. Qed.

Lemma py_lt_none_right (a : pyval) : py_lt a VNone = Raise not_supported.
Proof. destruct a as [| [|] | | | |]; reflexivity. Qed.

Section SortRaises.
Variable A : Type.
Implicit Types (x y : pyval * A) (s l r : list (pyval * A)).

Lemma insert_raise x s e : insert x s = Raise e -> e = not_supported.
Proof.
  induction s as [| y s IH]; simpl; [discriminate |].
  destruct (py_lt (fst y) (fst x)) as [[|] | e'] eqn:E; simpl.
  - destruct (insert x s) as [r | e'']; simpl; [discriminate |].
    intros [= <-]. now apply IH.
  - discriminate.
  - intros [= <-]. eapply py_lt_raise; eassumption.
Qed.

Lemma sort_keyed_raise l e : sort_keyed l = Raise e -> e = not_supported.
Proof.
  induction l as [| x l IH]; simpl; [discriminate |].
  destruct (sort_keyed l) as [s | e']; simpl.
  - apply insert_raise.
  - intros [= <-]. now apply IH.
Qed.

(** With two elements or more, one of them under the key [None], the
    sort compares that key with another and raises. *)
Lemma sort_keyed_none l :
  Exists (fun x => fst x = VNone) l -> 2 <= length l ->
  sort_keyed l = Raise not_supported.
Proof.
  induction l as [| x l IH]; simpl; intros Hn Hl; [lia |].
  destruct (sort_keyed l) as [s | e] eqn:Es; simpl.
  - assert (P := @sort_keyed_permutation _ _ _ Es).
    inversion Hn as [? ? Hx | ? ? Hl']; subst.
    + destruct s as [| y s].
      * apply Permutation_length in P. simpl in *. lia.
      * simpl. rewrite Hx, py_lt_none_right. reflexivity.
    + destruct l as [| n [| n' l]].
      * inversion Hl'.
      * inversion Hl' as [? ? Hk | ? ? Hk]; subst; [| inversion Hk].
        simpl in Es. injection Es as <-. simpl.
        rewrite Hk, py_lt_none_left. reflexivity.
      * discriminate IH; [exact Hl' | simpl; lia].
  - f_equal. eapply sort_keyed_raise. exact Es.
Qed.

End SortRaises.

Lemma decorate_dicts (repos : list pyval) :
  Forall (fun r => exists d, r = VDict d) repos ->
  exists keyed,
    decorate pushed_at_key repos = Ok keyed
    /\ length keyed = length repos
    /\ forall r, In r repos -> pushed_at_key r = Ok VNone ->
                 In (VNone, r) keyed.
Proof.
  induction 1 as [| r repos [d ->] _ IH]; simpl.
  - exists []. repeat split. contradiction.
  - destruct IH as (keyed & -> & L & I). simpl.
    eexists. split; [reflexivity |]. simpl. split; [now rewrite L |].
    intros r [<- | Hr] Hk.
    + left. unfold pushed_at_key in Hk. simpl in Hk. congruence.
    + right. now apply I.
Qed.

(** X3.  The null key, in general.  When two records or more are fetched,
    all of them dicts, and one of them holds a null last-push field, the
    sort raises [TypeError], whatever the limit. *)
Theorem null_pushed_at_among_several_raises
  (repos : list pyval) (repo_limit : Z) :
  Forall (fun r => exists d, r = VDict d) repos ->
  2 <= length repos ->
  Exists (fun r => pushed_at_key r = Ok VNone) repos ->
  sort_and_truncate repos repo_limit = Raise not_supported.
Proof.
  intros Hd Hl Hn. unfold sort_and_truncate, sorted.
  destruct (decorate_dicts Hd) as (keyed & -> & L & I). simpl.
  rewrite sort_keyed_none; [reflexivity | |].
  - apply Exists_exists in Hn. destruct Hn as (r & Hr & Hk).
    apply Exists_exists. exists (VNone, r). split; [| reflexivity].
    apply in_rev. rewrite rev_involutive. now apply I.
  - rewrite length_rev. lia.
Qed.

Lemma null_pushed_at_among_several_raises_witness :
  Forall (fun r => exists d, r = VDict d) [repo_null; repo_unpushed]
  /\ 2 <= length [repo_null; repo_unpushed]
  /\ Exists (fun r => pushed_at_key r = Ok VNone) [repo_null; repo_unpushed]
  /\ sort_and_truncate [repo_null; repo_unpushed] 5 = Raise not_supported.
Proof.
  assert (D : Forall (fun r => exists d, r = VDict d)
                     [repo_null; repo_unpushed]).
  { repeat constructor; eexists; reflexivity. }
  assert (L : 2 <= length [repo_null; repo_unpushed]) by (simpl; lia).
  assert (N : Exists (fun r => pushed_at_key r = Ok VNone)
                     [repo_null; repo_unpushed]).
  { left. reflexivity. }
  split; [exact D |]. split; [exact L |]. split; [exact N |].
  exact (@null_pushed_at_among_several_raises [repo_null; repo_unpushed] 5
           D L N).
Defined.

(** X4.  Fewer than two records are never compared.  An empty list and a
    list of one dict are returned by the sort as they are, whatever the
    last-push field holds, and then truncated. *)
Theorem short_lists_are_not_compared (repo_limit : Z) :
  sort_and_truncate [] repo_limit = Ok []
  /\ forall d : dict,
       sort_and_truncate [VDict d] repo_limit
       = Ok (slice_to [VDict d] repo_limit).
Proof.
  split.
  - unfold sort_and_truncate, slice_to. simpl.
    destruct (0 <=? repo_limit)%Z; now rewrite firstn_nil.
  - intros d. reflexivity.
Qed.

(* ================================================================== *)
(** ** Further properties of the credential resolver *)

Lemma rstrip_idempotent (s : string) : rstrip (rstrip s) = rstrip s.
Proof.
  induction s as [| c r IH]; simpl; trivial.
  destruct (rstrip r) as [| c' r'] eqn:E.
  - destruct (isspace c) eqn:Sp; simpl; trivial. now rewrite Sp.
  - simpl in IH. simpl. destruct (rstrip r') as [| c'' r''] eqn:E'.
    + destruct (isspace c'); [discriminate | now rewrite IH].
    + now rewrite IH.
Qed.

Lemma lstrip_head (s : string) :
  match lstrip s with
  | EmptyString => True
  | String c _ => isspace c = false
  end.
Proof.
  induction s as [| c r IH]; simpl; trivial.
  destruct (isspace c) eqn:E; [exact IH | exact E].
Qed.

Lemma lstrip_rstrip_fixed (s : string) :
  match s with
  | EmptyString => True
  | String c _ => isspace c = false
  end ->
  lstrip (rstrip s) = rstrip s.
Proof.
  destruct s as [| c r]; simpl; trivial. intros Hc.
  destruct (rstrip r); rewrite ?Hc; simpl; now rewrite Hc.
Qed.

(** Trimming a trimmed string changes nothing. *)
Lemma strip_idempotent (s : string) : strip (strip s) = strip s.
Proof.
  unfold strip.
  rewrite (lstrip_rstrip_fixed (lstrip s) (lstrip_head s)).
  apply rstrip_idempotent.
Qed.

Section ResolverMore.
Context {svc : Services}.

Lemma first_token_trimmed values t :
  first_token values = Some t -> strip t = t.
Proof.
  induction values as [| v values IH]; simpl; [discriminate |].
  destruct (token_of v) as [t' |] eqn:E; [| exact IH].
  intros [= ->]. destruct v; simpl in E; try discriminate.
  destruct (str_truthy (strip s)); [| discriminate].
  injection E as <-. apply strip_idempotent.
Qed.

Lemma token_from_secret_trimmed secret_value t :
  strip secret_value = secret_value ->
  token_from_secret secret_value = Ok t -> strip t = t.
Proof.
  intros Hs. unfold token_from_secret.
  destruct (startswith secret_value "{"); [| congruence].
  destruct (json_loads secret_value) as [payload |]; [| congruence].
  destruct (candidate_value payload) as [c |] eqn:E; [| discriminate].
  intros [= ->]. destruct payload as [| | | | items | d];
    unfold candidate_value in E; try discriminate.
  - eapply first_token_trimmed; eassumption.
  - destruct (first_token (map (dict_get d) token_keys)) eqn:F.
    + injection E as ->. eapply first_token_trimmed; eassumption.
    + eapply first_token_trimmed; eassumption.
Qed.

(** X5.  What is returned is what is cached, and it is clean.  A call that
    finds the cache empty and returns a token returns a string that is not
    empty and has no whitespace at either end, and leaves that very string
    in the cache. *)
Theorem resolved_token_is_trimmed (arn : string) (w : world) (t : string) :
  _cached_secret w = None ->
  fst (_load_token arn w) = Ok t ->
  t <> EmptyString /\ strip t = t
  /\ _cached_secret (snd (_load_token arn w)) = Some t.
Proof.
  intros Hc H.
  assert (C := load_token_cold arn w Hc). rewrite H in C.
  rewrite (load_token_miss arn w Hc) in H |- *.
  assert (E := resolve_secret_effect arn w).
  destruct (resolve_secret arn w) as [r w']. simpl in H. subst r.
  destruct E as (_ & _ & _ & _ & Hcache & Ht & _). simpl.
  split; [now apply str_truthy_iff |]. split; [| exact Hcache].
  destruct (next_secret arn w) as [msg | [s |]]; try discriminate.
  destruct (str_truthy s); simpl in C; [| discriminate].
  destruct (str_truthy (strip s)); simpl in C; [| discriminate].
  symmetry in C. eapply token_from_secret_trimmed; [| exact C].
  apply strip_idempotent.
Qed.

Lemma first_token_none (values : list pyval) :
  first_token values = None <-> Forall (fun v => token_of v = None) values.
Proof.
  induction values as [| v values IH]; simpl.
  - split; auto.
  - destruct (token_of v) eqn:E.
    + split; [discriminate |]. intros H. inversion H. congruence.
    + rewrite IH. split; [now constructor | now inversion 1].
Qed.

Lemma dict_get_in_values (d : dict) (key : string) :
  dict_get d key = VNone \/ In (dict_get d key) (dict_values d).
Proof.
  unfold dict_get, dict_values. induction d as [| [k v] d IH]; simpl; auto.
  destruct (String.eqb k key); [right; now left |].
  destruct IH as [IH | IH]; [now left | right; now right].
Qed.

(** A mapping yields no candidate exactly when none of its values is a
    string that is not blank: the named keys add nothing to the values. *)
Lemma candidate_value_dict_none (d : dict) :
  candidate_value (VDict d) = None
  <-> Forall (fun v => token_of v = None) (dict_values d).
Proof.
  unfold candidate_value. split.
  - destruct (first_token (map (dict_get d) token_keys)); [discriminate |].
    apply first_token_none.
  - intros F.
    assert (K : first_token (map (dict_get d) token_keys) = None).
    { apply first_token_none, Forall_map, Forall_forall. intros k _.
      destruct (dict_get_in_values d k) as [-> | I]; [reflexivity |].
      rewrite Forall_forall in F. now apply F. }
    rewrite K. now apply first_token_none.
Qed.

(** X6.  The no-token error on a mapping.  When the trimmed payload parses
    as a mapping, [_load_token] raises the no-token error exactly when no
    value of the mapping, under whatever key, is a string with something
    other than whitespace in it. *)
Theorem mapping_without_token
  (arn : string) (w : world) (s : string) (d : dict) :
  _cached_secret w = None ->
  next_secret arn w = SecretsResponse (Some s) ->
  startswith (strip s) "{" = true ->
  json_loads (strip s) = Some (VDict d) ->
  (fst (_load_token arn w) = Raise (RuntimeError secret_json_no_token_msg)
   <-> Forall (fun v => token_of v = None) (dict_values d)).
Proof.
  intros Hc Hr Hb Hj. rewrite (load_token_cold arn w Hc), Hr.
  assert (Ht := startswith_brace_truthy _ Hb).
  rewrite (strip_truthy_source s Ht), Ht. simpl.
  unfold token_from_secret. rewrite Hb, Hj.
  rewrite <- candidate_value_dict_none.
  destruct (candidate_value (VDict d)); split; congruence.
Qed.

(** X7.  The fallback over the values.  When the trimmed payload parses as a
    mapping and none of the seven named keys holds a usable string, the
    credential is the first value of the mapping, in its order, that is a
    string not blank, trimmed. *)
Theorem mapping_fallback_first_value
  (arn : string) (w : world) (s : string) (d : dict)
  (before : list (string * pyval)) (key v : string)
  (after : list (string * pyval)) :
  _cached_secret w = None ->
  next_secret arn w = SecretsResponse (Some s) ->
  startswith (strip s) "{" = true ->
  json_loads (strip s) = Some (VDict d) ->
  Forall (fun k => token_of (dict_get d k) = None) token_keys ->
  d = before ++ (key, VStr v) :: after ->
  Forall (fun kv => token_of (snd kv) = None) before ->
  strip v <> EmptyString ->
  fst (_load_token arn w) = Ok (strip v).
Proof.
  intros Hc Hr Hb Hj Hk Hd Hbefore Hv.
  rewrite (load_token_cold arn w Hc), Hr.
  assert (Ht := startswith_brace_truthy _ Hb).
  rewrite (strip_truthy_source s Ht), Ht. simpl.
  unfold token_from_secret. rewrite Hb, Hj. unfold candidate_value.
  assert (K : first_token (map (dict_get d) token_keys) = None).
  { apply first_token_none. now apply Forall_map. }
  rewrite K.
  assert (F : first_token (dict_values d) = Some (strip v)).
  { apply first_token_split.
    exists (map snd before), (VStr v), (map snd after).
    unfold dict_values. rewrite Hd, map_app. simpl.
    split; [reflexivity |]. split; [now apply Forall_map |].
    now apply token_of_str. }
  now rewrite F.
Qed.

End ResolverMore.

Lemma resolved_token_is_trimmed_witness :
  _cached_secret initial_world = None
  /\ fst (@_load_token svc_both_keys "arn:github-token" initial_world)
     = Ok "t-456"
  /\ "t-456" <> EmptyString /\ strip "t-456" = "t-456"
  /\ _cached_secret
       (snd (@_load_token svc_both_keys "arn:github-token" initial_world))
     = Some "t-456".
Proof.
  split; [reflexivity |]. split; [reflexivity |].
  exact (@resolved_token_is_trimmed svc_both_keys "arn:github-token"
           initial_world "t-456" eq_refl eq_refl).
Defined.

Lemma mapping_without_token_witness :
  _cached_secret initial_world = None
  /\ @next_secret svc_no_token "arn:github-token" initial_world
     = SecretsResponse (Some (Json.json_encode (VDict no_token_keys)))
  /\ startswith (strip (Json.json_encode (VDict no_token_keys))) "{" = true
  /\ @json_loads svc_no_token (strip (Json.json_encode (VDict no_token_keys)))
     = Some (VDict no_token_keys)
  /\ (fst (@_load_token svc_no_token "arn:github-token" initial_world)
      = Raise (RuntimeError secret_json_no_token_msg)
      <-> Forall (fun v => token_of v = None) (dict_values no_token_keys)).
Proof.
  assert (B : startswith (strip (Json.json_encode (VDict no_token_keys))) "{"
              = true) by (vm_compute; reflexivity).
  assert (J : @json_loads svc_no_token
                (strip (Json.json_encode (VDict no_token_keys)))
              = Some (VDict no_token_keys)) by (vm_compute; reflexivity).
  split; [reflexivity |]. split; [reflexivity |]. split; [exact B |].
  split; [exact J |].
  exact (@mapping_without_token svc_no_token "arn:github-token" initial_world
           (Json.json_encode (VDict no_token_keys)) no_token_keys
           eq_refl eq_refl B J).
Defined.

Example no_token_run :
  fst (@_load_token svc_no_token "arn:github-token" initial_world)
  = Raise (RuntimeError secret_json_no_token_msg).
Proof. vm_compute. reflexivity. Qed.

Lemma mapping_fallback_first_value_witness :
  _cached_secret initial_world = None
  /\ startswith (strip (Json.json_encode (VDict fallback_keys))) "{" = true
  /\ @json_loads svc_fallback (strip (Json.json_encode (VDict fallback_keys)))
     = Some (VDict fallback_keys)
  /\ Forall (fun k => token_of (dict_get fallback_keys k) = None) token_keys
  /\ fst (@_load_token svc_fallback "arn:github-token" initial_world)
     = Ok "ghp_fallback".
Proof.
  assert (B : startswith (strip (Json.json_encode (VDict fallback_keys))) "{"
              = true) by (vm_compute; reflexivity).
  assert (J : @json_loads svc_fallback
                (strip (Json.json_encode (VDict fallback_keys)))
              = Some (VDict fallback_keys)) by (vm_compute; reflexivity).
  assert (K : Forall (fun k => token_of (dict_get fallback_keys k) = None)
                     token_keys) by (repeat constructor).
  assert (V : strip " ghp_fallback " <> EmptyString)
    by (vm_compute; discriminate).
  split; [reflexivity |]. split; [exact B |]. split; [exact J |].
  split; [exact K |].
  refine (@mapping_fallback_first_value svc_fallback "arn:github-token"
            initial_world (Json.json_encode (VDict fallback_keys))
            fallback_keys [("note", VInt 1); ("api", VStr "  ")]
            "credential" " ghp_fallback " []
            eq_refl eq_refl B J K eq_refl _ V).
  repeat constructor.
Defined.

(* ================================================================== *)
(** ** Further properties of the remote client *)

Lemma error_messages_apart (code : N) (body reason : string) :
  http_error_msg code body <> url_error_msg reason.
Proof. unfold http_error_msg, url_error_msg. simpl. discriminate. Qed.

Section ClientMore.
Context {svc : Services}.

(** X8.  When the client returns.  [_github_request] returns a value
    exactly when the final response has a status from 200 to 299 and its
    body parses as JSON; the value is the parsed body. *)
Theorem github_request_returns_iff
  (url token : string) (w : world) (v : pyval) :
  fst (_github_request url token w) = Ok v
  <-> exists status text,
        next_response url token w = FinalResponse status text
        /\ (200 <= status < 300)%N
        /\ json_loads text = Some v.
Proof.
  unfold _github_request, bind, call_urlopen. fold (next_response url token w).
  destruct (next_response url token w) as [status text | reason | e];
    unfold urlopen_outcome.
  - destruct ((200 <=? status) && (status <? 300))%N eqn:E.
    + apply andb_prop in E. destruct E as [E1 E2].
      apply N.leb_le in E1. apply N.ltb_lt in E2.
      destruct (json_loads text) as [v' |] eqn:J; simpl; split.
      * intros [= <-]. exists status, text. auto.
      * intros (status' & text' & [= <- <-] & _ & J'). congruence.
      * discriminate.
      * intros (status' & text' & [= <- <-] & _ & J'). congruence.
    + simpl. split; [discriminate |].
      intros (status' & text' & [= <- <-] & [H1 H2] & _).
      apply N.leb_le in H1. apply N.ltb_lt in H2.
      rewrite H1, H2 in E. discriminate.
  - simpl. split; [discriminate |].
    intros (status' & text' & H & _). discriminate.
  - simpl. split; [discriminate |].
    intros (status' & text' & H & _). discriminate.
Qed.

(** X9.  The other failures of the client, and its one request.  When
    urllib raises [URLError] the client raises the network error with the
    reason; an exception that is neither [HTTPError] nor [URLError] (a
    timeout or a disconnection while the response is awaited, a body that
    cannot be decoded) leaves the client as it is, not wrapped; a 2xx
    response whose body is not JSON raises [JSONDecodeError] as it is, not
    wrapped; the two error messages of the client never coincide; and
    whatever happens the client makes one request, to the given URL with
    the token in the [Authorization] header, and changes nothing else. *)
Theorem github_request_failures_and_effect
  (url token : string) (w : world) :
  (forall reason,
      next_response url token w = URLFailure reason ->
      fst (_github_request url token w)
      = Raise (RuntimeError (url_error_msg reason)))
  /\ (forall e,
        next_response url token w = Interrupted e ->
        fst (_github_request url token w) = Raise e)
  /\ (forall status text,
        next_response url token w = FinalResponse status text ->
        (200 <= status < 300)%N ->
        json_loads text = None ->
        fst (_github_request url token w) = Raise JSONDecodeError)
  /\ (forall code body reason,
        http_error_msg code body <> url_error_msg reason)
  /\ snd (_github_request url token w)
     = mkWorld (_cached_secret w) (cache_writes w) (secrets_calls w)
               (http_calls w ++ [mkRequest url (github_headers token)])
               (clock_reads w) (s3_objects w)
  /\ In ("Authorization", ("token " ++ token)%string) (github_headers token).
Proof.
  split; [| split; [| split; [| split; [| split]]]].
  - intros reason H. unfold _github_request, bind, call_urlopen.
    fold (next_response url token w). now rewrite H.
  - intros e H. unfold _github_request, bind, call_urlopen.
    fold (next_response url token w). now rewrite H.
  - intros status text H [H1 H2] J.
    unfold _github_request, bind, call_urlopen.
    fold (next_response url token w). rewrite H. unfold urlopen_outcome.
    apply N.leb_le in H1. apply N.ltb_lt in H2. rewrite H1, H2. simpl.
    now rewrite J.
  - intros. apply error_messages_apart.
  - unfold _github_request, bind, call_urlopen.
    destruct (urlopen_outcome _) as [payload | code body | reason | e];
      try reflexivity.
    destruct (json_loads payload); reflexivity.
  - simpl. auto.
Qed.

End ClientMore.

(* ================================================================== *)
(** ** Further properties of the transformer and of the payload *)

Section PayloadMore.
Context {svc : Services}.

Lemma same_but_clock_refl (w : world) : same_but_clock w w.
Proof. unfold same_but_clock. auto. Qed.

Lemma same_but_clock_trans (w1 w2 w3 : world) :
  same_but_clock w1 w2 -> same_but_clock w2 w3 -> same_but_clock w1 w3.
Proof. unfold same_but_clock. intuition congruence. Qed.

Lemma transform_repo_clock (raw : pyval) (w : world) :
  same_but_clock w (snd (_transform_repo raw w)).
Proof.
  destruct raw as [| | | | |d]; [apply same_but_clock_refl .. |].
  rewrite transform_repo_dict. unfold same_but_clock. simpl. auto.
Qed.

Lemma mapM_transform_clock (repos : list pyval) : forall w,
  same_but_clock w (snd (mapM _transform_repo repos w)).
Proof.
  induction repos as [| raw repos IH]; intros w; simpl.
  - apply same_but_clock_refl.
  - unfold bind. assert (T := transform_repo_clock raw w).
    destruct (_transform_repo raw w) as [[y | e] w1]; simpl in *; trivial.
    specialize (IH w1).
    destruct (mapM _transform_repo repos w1) as [[ys | e] w2]; simpl in *;
      eapply same_but_clock_trans; eassumption.
Qed.

Lemma build_payload_clock (repos : list pyval) (w : world) :
  same_but_clock w (snd (build_payload repos w)).
Proof.
  unfold build_payload, bind, utcnow.
  match goal with
  | |- context [mapM _transform_repo repos ?w1] =>
      assert (T := mapM_transform_clock repos w1);
      destruct (mapM _transform_repo repos w1) as [[ys | e] w2]
  end; simpl in *; exact T.
Qed.

(** The transformed records of a list of dicts, one by one. *)
Lemma mapM_transform_dicts (ds : list dict) : forall w,
  exists projects w',
    mapM _transform_repo (map VDict ds) w = (Ok projects, w')
    /\ length projects = length ds
    /\ clock_reads w' = clock_reads w + length ds
    /\ forall i d,
         nth_error ds i = Some d ->
         nth_error projects i
         = Some (fst_ok (_transform_repo (VDict d)
                           (mkWorld (_cached_secret w) (cache_writes w)
                                    (secrets_calls w) (http_calls w)
                                    (clock_reads w + i) (s3_objects w)))).
Proof.
  induction ds as [| d ds IH]; intros w; simpl.
  - exists [], w. repeat split; auto. intros [| i] d; discriminate.
  - unfold bind. rewrite transform_repo_dict.
    match goal with
    | |- context [mapM _transform_repo (map VDict ds) ?w1] =>
        destruct (IH w1) as (ps & w' & E & L & C & N)
    end.
    rewrite E. simpl in C. eexists. exists w'. split; [reflexivity |].
    split; [simpl; now rewrite L |]. split; [lia |].
    intros [| i] d'; simpl.
    + intros [= <-]. rewrite transform_repo_dict. simpl.
      now rewrite Nat.add_0_r.
    + intros H. rewrite (N i d' H). simpl.
      rewrite !transform_repo_dict. simpl.
      repeat f_equal; lia.
Qed.

End PayloadMore.

Section PayloadTheorems.
Context {svc : Services}.

(** X10.  The payload follows the order of the records.  On a list of dicts
    [build_payload] returns; it reads the clock once for [generatedAt] and
    then once per record, in order; the projects are as many as the
    records, and the project at each position is made from the record at
    that position, with its own [fetchedAt]. *)
Theorem build_payload_in_order (ds : list dict) (w : world) :
  exists projects w',
    build_payload (map VDict ds) w
    = (Ok (VDict [ ("generatedAt", VStr (utcnow_isoformat (clock_reads w)));
                   ("source", VStr "aws-lambda");
                   ("projects", VList projects) ]), w')
    /\ length projects = length ds
    /\ clock_reads w' = clock_reads w + 1 + length ds
    /\ same_but_clock w w'
    /\ forall i d,
         nth_error ds i = Some d ->
         exists p sync,
           nth_error projects i = Some (VDict p)
           /\ dict_lookup "repo" p = Some (dict_get d "full_name")
           /\ dict_lookup "displayName" p = Some (dict_get d "name")
           /\ dict_lookup "sync" p = Some (VDict sync)
           /\ dict_lookup "fetchedAt" sync
              = Some (VStr (utcnow_isoformat (clock_reads w + 1 + i))).
Proof.
  assert (B := build_payload_clock (map VDict ds) w).
  unfold build_payload, bind, utcnow in *.
  match goal with
  | |- context [mapM _transform_repo (map VDict ds) ?w1] =>
      destruct (mapM_transform_dicts ds w1) as (ps & w' & E & L & C & N)
  end.
  rewrite E in *. simpl in *. exists ps, w'.
  split; [reflexivity |]. split; [exact L |]. split; [lia |].
  split; [exact B |].
  intros i d H. rewrite (N i d H). unfold fst_ok.
  rewrite transform_repo_dict. simpl.
  eexists. eexists. split; [reflexivity |].
  repeat (split; [reflexivity |]). simpl.
  repeat f_equal. lia.
Qed.

Lemma sorted_records_are_dicts (repos top_repos : list pyval) (repo_limit : Z) :
  sort_and_truncate repos repo_limit = Ok top_repos ->
  exists ds, top_repos = map VDict ds.
Proof.
  unfold sort_and_truncate.
  destruct (sorted repos pushed_at_key true) as [s | e] eqn:E; simpl;
    [| discriminate].
  intros [= <-]. destruct (sorted_permutation _ _ _ E) as [P F].
  assert (D : Forall (fun r => exists d, r = VDict d) (slice_to s repo_limit)).
  { apply Forall_forall. intros r Hr. apply slice_to_incl in Hr.
    rewrite Forall_forall in F.
    destruct (F r) as [v Hv].
    - eapply Permutation_in; [symmetry; exact P | exact Hr].
    - eapply pushed_at_key_dict; exact Hv. }
  induction D as [| r rs [d ->] _ [ds ->]].
  - now exists [].
  - now exists (d :: ds).
Qed.

(** X11.  After the sort, the transformer cannot raise.  Every record that
    comes out of the sort and the truncation is a dict, since the sort has
    called [get] on each; so [build_payload] returns on them, in every
    state. *)
Theorem sorted_records_always_transform
  (repos top_repos : list pyval) (repo_limit : Z) (w : world) :
  sort_and_truncate repos repo_limit = Ok top_repos ->
  exists payload w', build_payload top_repos w = (Ok payload, w').
Proof.
  intros H. destruct (sorted_records_are_dicts _ _ H) as [ds ->].
  unfold build_payload, bind, utcnow.
  match goal with
  | |- context [mapM _transform_repo (map VDict ds) ?w1] =>
      destruct (mapM_transform_dicts ds w1) as (ps & w' & E & _)
  end.
  rewrite E. eexists. eexists. reflexivity.
Qed.

End PayloadTheorems.

Lemma sorted_records_always_transform_witness :
  sort_and_truncate four_repos 2 = Ok [repo_2024; repo_2023]
  /\ exists payload w',
       @build_payload svc_plain [repo_2024; repo_2023] initial_world
       = (Ok payload, w').
Proof.
  split; [reflexivity |].
  exact (@sorted_records_always_transform svc_plain four_repos
           [repo_2024; repo_2023] 2 initial_world eq_refl).
Defined.

(* ================================================================== *)
(** ** Further properties of the orchestrator *)

Section HandlerMore.
Context {svc : Services}.

Lemma github_request_world (url token : string) (w : world) :
  snd (_github_request url token w)
  = mkWorld (_cached_secret w) (cache_writes w) (secrets_calls w)
            (http_calls w ++ [mkRequest url (github_headers token)])
            (clock_reads w) (s3_objects w).
Proof.
  unfold _github_request, bind, call_urlopen.
  destruct (urlopen_outcome _) as [payload | code body | reason | e];
    try reflexivity.
  destruct (json_loads payload); reflexivity.
Qed.

Lemma put_to_s3_world (bucket key : string) (payload : pyval) (w : world) :
  let w' := snd (put_to_s3 bucket key payload w) in
  _cached_secret w' = _cached_secret w
  /\ cache_writes w' = cache_writes w
  /\ secrets_calls w' = secrets_calls w
  /\ http_calls w' = http_calls w.
Proof.
  unfold put_to_s3, call_put_object.
  destruct (put_object _ _); simpl; auto.
Qed.

(** What has happened when the steps after the configuration return. *)
Lemma pipeline_returns
  (username bucket key arn : string) (limit : Z) (w w' : world) (v : pyval) :
  pipeline username bucket key arn limit w = (Ok v, w') ->
  exists token w1 repos w2 top_repos payload w3,
    _load_token arn w = (Ok token, w1)
    /\ _github_request (api_url username) token w1 = (Ok (VList repos), w2)
    /\ sort_and_truncate repos limit = Ok top_repos
    /\ build_payload top_repos w2 = (Ok payload, w3)
    /\ put_to_s3 bucket key payload w3 = (Ok tt, w')
    /\ v = VDict [ ("status", VStr "ok");
                   ("bucket", VStr bucket);
                   ("key", VStr key);
                   ("count", VInt (Z.of_nat (length top_repos))) ].
Proof.
  unfold pipeline, bind, lift, ret, raise.
  destruct (_load_token arn w) as [[token | e] w1] eqn:EL; [| discriminate].
  destruct (_github_request (api_url username) token w1) as [[r | e] w2]
    eqn:EG; [| discriminate].
  destruct r as [| | | | repos |]; try discriminate.
  destruct (sort_and_truncate repos limit) as [top |] eqn:ES; [| discriminate].
  destruct (build_payload top w2) as [[payload | e] w3] eqn:EB;
    [| discriminate].
  destruct (put_to_s3 bucket key payload w3) as [[[] | e] w4] eqn:EP;
    [| discriminate].
  intros [= <- <-].
  exists token, w1, repos, w2, top, payload, w3.
  repeat (split; [first [reflexivity | assumption] |]). reflexivity.
Qed.

Lemma sort_and_truncate_bound (repos top_repos : list pyval) (limit : Z) :
  (0 <= limit)%Z ->
  sort_and_truncate repos limit = Ok top_repos ->
  (Z.of_nat (length top_repos) <= limit)%Z.
Proof.
  intros Hl. unfold sort_and_truncate.
  destruct (sorted repos pushed_at_key true) as [s | e]; simpl;
    [| discriminate].
  intros [= <-]. rewrite slice_to_length.
  apply Z.leb_le in Hl. rewrite Hl. lia.
Qed.

Lemma handler_returns_shape
  (event context : pyval) (w w' : world) (v : pyval)
  (username bucket arn : string) (limit : Z) :
  environ "GITHUB_USERNAME" = Some username ->
  environ "SITE_BUCKET_NAME" = Some bucket ->
  environ "GITHUB_TOKEN_SECRET_ARN" = Some arn ->
  py_int (environ_get "REPO_LIMIT" "5") = Ok limit ->
  lambda_handler event context w = (Ok v, w') ->
  let key := environ_get "PROJECTS_OBJECT_KEY" "projects.json" in
  exists count generated_at projects,
    v = VDict [ ("status", VStr "ok");
                ("bucket", VStr bucket);
                ("key", VStr key);
                ("count", VInt (Z.of_nat count)) ]
    /\ s3_objects w'
       = s3_objects w
         ++ [mkPut bucket key
               (json_dumps
                  (VDict [ ("generatedAt", VStr generated_at);
                           ("source", VStr "aws-lambda");
                           ("projects", VList projects) ]))
               "application/json" "no-cache, no-store, must-revalidate"]
    /\ length projects = count
    /\ ((0 <= limit)%Z -> (Z.of_nat count <= limit)%Z).
Proof.
  intros Hu Hb Ha Hl H key.
  rewrite (lambda_handler_configured event context w Hu Hb Ha Hl) in H.
  fold key in H.
  destruct (pipeline_returns _ _ _ _ _ _ H)
    as (token & w1 & repos & w2 & top & payload & w3
        & EL & EG & ES & EB & EP & ->).
  assert (L := load_token_keeps_sink arn w). rewrite EL in L. simpl in L.
  assert (G := github_request_keeps_sink (api_url username) token w1).
  rewrite EG in G. simpl in G.
  assert (B := build_payload_keeps_sink top w2). rewrite EB in B. simpl in B.
  assert (P := put_to_s3_effect bucket key payload w3). rewrite EP in P.
  destruct (sorted_records_are_dicts _ _ ES) as [ds ->].
  revert EB. unfold build_payload, bind, utcnow.
  match goal with
  | |- context [mapM _transform_repo (map VDict ds) ?w0] =>
      destruct (mapM_transform_dicts ds w0) as (ps & w0' & E & Lp & _)
  end.
  rewrite E. intros [= <- <-].
  exists (length (map VDict ds)), (utcnow_isoformat (clock_reads w2)), ps.
  split; [reflexivity |]. split; [rewrite P; congruence |].
  split; [now rewrite length_map |].
  intros H0. eapply sort_and_truncate_bound; eassumption.
Qed.

(** X12.  What a successful invocation leaves behind.  When the handler
    returns, it has stored exactly one object, under the configured bucket
    and key, as JSON that is never to be cached; the object is the payload
    with its three entries; the [count] returned is the number of projects
    in that payload, and is at most [REPO_LIMIT] when that is not
    negative. *)
Theorem handler_success_shape
  (event context : pyval) (w w' : world) (v : pyval)
  (username bucket arn : string) (limit : Z) :
  environ "GITHUB_USERNAME" = Some username ->
  environ "SITE_BUCKET_NAME" = Some bucket ->
  environ "GITHUB_TOKEN_SECRET_ARN" = Some arn ->
  py_int (environ_get "REPO_LIMIT" "5") = Ok limit ->
  lambda_handler event context w = (Ok v, w') ->
  let key := environ_get "PROJECTS_OBJECT_KEY" "projects.json" in
  exists count generated_at projects,
    v = VDict [ ("status", VStr "ok");
                ("bucket", VStr bucket);
                ("key", VStr key);
                ("count", VInt (Z.of_nat count)) ]
    /\ s3_objects w'
       = s3_objects w
         ++ [mkPut bucket key
               (json_dumps
                  (VDict [ ("generatedAt", VStr generated_at);
                           ("source", VStr "aws-lambda");
                           ("projects", VList projects) ]))
               "application/json" "no-cache, no-store, must-revalidate"]
    /\ length projects = count
    /\ ((0 <= limit)%Z -> (Z.of_nat count <= limit)%Z).
Proof.
  intros Hu Hb Ha Hl H.
  exact (@handler_returns_shape event context w w' v username bucket arn
           limit Hu Hb Ha Hl H).
Qed.

(** X13.  The defaults.  With neither [PROJECTS_OBJECT_KEY] nor [REPO_LIMIT]
    in the environment, a handler that returns has stored its object under
    the key [projects.json] and reports that key and a [count] of 5 at
    most. *)
Theorem defaults_apply
  (event context : pyval) (w w' : world) (v : pyval)
  (username bucket arn : string) :
  environ "GITHUB_USERNAME" = Some username ->
  environ "SITE_BUCKET_NAME" = Some bucket ->
  environ "GITHUB_TOKEN_SECRET_ARN" = Some arn ->
  environ "PROJECTS_OBJECT_KEY" = None ->
  environ "REPO_LIMIT" = None ->
  lambda_handler event context w = (Ok v, w') ->
  exists count body,
    v = VDict [ ("status", VStr "ok");
                ("bucket", VStr bucket);
                ("key", VStr "projects.json");
                ("count", VInt (Z.of_nat count)) ]
    /\ count <= 5
    /\ s3_objects w'
       = s3_objects w
         ++ [mkPut bucket "projects.json" body "application/json"
                   "no-cache, no-store, must-revalidate"].
Proof.
  intros Hu Hb Ha Hk Hr H.
  assert (Hl : py_int (environ_get "REPO_LIMIT" "5") = Ok 5%Z).
  { unfold environ_get. rewrite Hr. reflexivity. }
  assert (X := @handler_returns_shape event context w w' v username bucket
                 arn 5%Z Hu Hb Ha Hl H).
  cbv zeta in X. destruct X as (count & gen & projects & Hv & Hs & _ & Hc).
  unfold environ_get in Hv, Hs. rewrite Hk in Hv, Hs.
  exists count. eexists. split; [exact Hv |]. split; [| exact Hs].
  assert (Z.of_nat count <= 5)%Z by (apply Hc; lia). lia.
Qed.

(** X14.  Configuration is checked before anything is contacted.  When a
    required variable is missing the handler raises [KeyError] for the
    first one missing, and when [REPO_LIMIT] is not an integer it raises
    the error of [int]; in each case the state is untouched: no secret was
    asked for, no request sent, nothing stored. *)
Theorem configuration_errors_touch_nothing
  (event context : pyval) (w : world) :
  (environ "GITHUB_USERNAME" = None ->
   lambda_handler event context w = (Raise (KeyError "GITHUB_USERNAME"), w))
  /\ (environ "GITHUB_USERNAME" <> None ->
      environ "SITE_BUCKET_NAME" = None ->
      lambda_handler event context w
      = (Raise (KeyError "SITE_BUCKET_NAME"), w))
  /\ (environ "GITHUB_USERNAME" <> None ->
      environ "SITE_BUCKET_NAME" <> None ->
      environ "GITHUB_TOKEN_SECRET_ARN" = None ->
      lambda_handler event context w
      = (Raise (KeyError "GITHUB_TOKEN_SECRET_ARN"), w))
  /\ (forall e,
        environ "GITHUB_USERNAME" <> None ->
        environ "SITE_BUCKET_NAME" <> None ->
        environ "GITHUB_TOKEN_SECRET_ARN" <> None ->
        py_int (environ_get "REPO_LIMIT" "5") = Raise e ->
        lambda_handler event context w = (Raise e, w)).
Proof.
  unfold lambda_handler, environ_item, bind, raise, ret, lift.
  destruct (environ "GITHUB_USERNAME");
    destruct (environ "SITE_BUCKET_NAME");
    destruct (environ "GITHUB_TOKEN_SECRET_ARN");
    repeat split; intros; try congruence.
  match goal with H : py_int _ = Raise _ |- _ => now rewrite H end.
Qed.

End HandlerMore.

Lemma sort_and_truncate_nil (limit : Z) : sort_and_truncate [] limit = Ok [].
Proof.
  unfold sort_and_truncate, slice_to. simpl.
  destruct (0 <=? limit)%Z; now rewrite firstn_nil.
Qed.

Section WarmAndEmpty.
Context {svc : Services}.

(** X15.  A warm process keeps its token.  When the cache holds a token, an
    invocation of the handler, whether it returns or raises (a rejected
    token included), asks the secret backend nothing, leaves the cache as
    it was, and sends its one request with the cached token. *)
Theorem warm_cache_is_reused
  (event context : pyval) (w : world)
  (username bucket arn : string) (limit : Z) (t : string) :
  environ "GITHUB_USERNAME" = Some username ->
  environ "SITE_BUCKET_NAME" = Some bucket ->
  environ "GITHUB_TOKEN_SECRET_ARN" = Some arn ->
  py_int (environ_get "REPO_LIMIT" "5") = Ok limit ->
  _cached_secret w = Some t ->
  t <> EmptyString ->
  let w' := snd (lambda_handler event context w) in
  secrets_calls w' = secrets_calls w
  /\ _cached_secret w' = Some t
  /\ cache_writes w' = cache_writes w
  /\ http_calls w'
     = http_calls w ++ [mkRequest (api_url username) (github_headers t)].
Proof.
  intros Hu Hb Ha Hl Hc Ht. apply str_truthy_iff in Ht.
  rewrite (lambda_handler_configured event context w Hu Hb Ha Hl).
  unfold pipeline, bind, lift, ret, raise.
  rewrite (load_token_hit arn w Hc Ht).
  assert (G := github_request_world (api_url username) t w).
  destruct (_github_request (api_url username) t w) as [[r | e] w2];
    simpl in G; subst w2; [| simpl; auto].
  destruct r as [| | | | repos |]; try (simpl; auto).
  destruct (sort_and_truncate repos limit) as [top |]; [| simpl; auto].
  match goal with
  | |- context [build_payload top ?w2] =>
      assert (B := build_payload_clock top w2);
      destruct (build_payload top w2) as [[payload | e] w3]
  end; simpl in B; destruct B as (B1 & B2 & B3 & B4 & _); simpl in *;
    [| rewrite B1, B2, B3, B4; auto].
  match goal with
  | |- context [put_to_s3 ?b ?k payload w3] =>
      assert (P := put_to_s3_world b k payload w3);
      destruct (put_to_s3 b k payload w3) as [[u | e] w4]
  end; simpl in P; destruct P as (P1 & P2 & P3 & P4); simpl;
    rewrite P1, P2, P3, P4, B1, B2, B3, B4; auto.
Qed.

(** X16.  An empty listing is stored as such.  When the token is resolved,
    the listing fetched is the empty list and S3 accepts the object, the
    handler returns with [count] 0 and has stored a payload whose
    [projects] is the empty list. *)
Theorem empty_listing_is_stored
  (event context : pyval) (w w1 w2 : world)
  (username bucket arn token : string) (limit : Z) :
  environ "GITHUB_USERNAME" = Some username ->
  environ "SITE_BUCKET_NAME" = Some bucket ->
  environ "GITHUB_TOKEN_SECRET_ARN" = Some arn ->
  py_int (environ_get "REPO_LIMIT" "5") = Ok limit ->
  _load_token arn w = (Ok token, w1) ->
  _github_request (api_url username) token w1 = (Ok (VList []), w2) ->
  let key := environ_get "PROJECTS_OBJECT_KEY" "projects.json" in
  let object :=
    mkPut bucket key
      (json_dumps
         (VDict [ ("generatedAt", VStr (utcnow_isoformat (clock_reads w2)));
                  ("source", VStr "aws-lambda");
                  ("projects", VList []) ]))
      "application/json" "no-cache, no-store, must-revalidate" in
  put_object (length (s3_objects w2)) object = None ->
  fst (lambda_handler event context w)
  = Ok (VDict [ ("status", VStr "ok");
                ("bucket", VStr bucket);
                ("key", VStr key);
                ("count", VInt 0) ])
  /\ s3_objects (snd (lambda_handler event context w))
     = s3_objects w ++ [object].
Proof.
  intros Hu Hb Ha Hl EL EG key object HP.
  rewrite (lambda_handler_configured event context w Hu Hb Ha Hl).
  fold key. unfold pipeline, bind, lift.
  rewrite EL, EG, sort_and_truncate_nil.
  assert (L := load_token_keeps_sink arn w). rewrite EL in L. simpl in L.
  assert (G := github_request_keeps_sink (api_url username) token w1).
  rewrite EG in G. simpl in G.
  unfold build_payload, bind, utcnow, put_to_s3, call_put_object, ret. simpl.
  fold object. rewrite HP. simpl. split; [reflexivity |]. congruence.
Qed.

End WarmAndEmpty.

Lemma handler_success_shape_witness :
  @environ svc_plain "GITHUB_USERNAME" = Some "chrism202"
  /\ @lambda_handler svc_plain VNone VNone initial_world
     = (Ok (VDict [ ("status", VStr "ok"); ("bucket", VStr "site-bucket");
                    ("key", VStr "projects.json"); ("count", VInt 2) ]),
        snd (@lambda_handler svc_plain VNone VNone initial_world))
  /\ exists count generated_at projects,
       VDict [ ("status", VStr "ok"); ("bucket", VStr "site-bucket");
               ("key", VStr "projects.json"); ("count", VInt 2) ]
       = VDict [ ("status", VStr "ok");
                 ("bucket", VStr "site-bucket");
                 ("key", VStr (@environ_get svc_plain "PROJECTS_OBJECT_KEY"
                                            "projects.json"));
                 ("count", VInt (Z.of_nat count)) ]
       /\ s3_objects (snd (@lambda_handler svc_plain VNone VNone initial_world))
          = s3_objects initial_world
            ++ [mkPut "site-bucket"
                  (@environ_get svc_plain "PROJECTS_OBJECT_KEY" "projects.json")
                  (@json_dumps svc_plain
                     (VDict [ ("generatedAt", VStr generated_at);
                              ("source", VStr "aws-lambda");
                              ("projects", VList projects) ]))
                  "application/json" "no-cache, no-store, must-revalidate"]
       /\ length projects = count
       /\ ((0 <= 2)%Z -> (Z.of_nat count <= 2)%Z).
Proof.
  assert (R : @lambda_handler svc_plain VNone VNone initial_world
              = (Ok (VDict [ ("status", VStr "ok");
                             ("bucket", VStr "site-bucket");
                             ("key", VStr "projects.json");
                             ("count", VInt 2) ]),
                 snd (@lambda_handler svc_plain VNone VNone initial_world)))
    by (vm_compute; reflexivity).
  split; [reflexivity |]. split; [exact R |].
  exact (@handler_success_shape svc_plain VNone VNone initial_world _ _
           "chrism202" "site-bucket" "arn:github-token" 2%Z
           eq_refl eq_refl eq_refl eq_refl R).
Defined.

Lemma warm_cache_is_reused_witness :
  _cached_secret warm_world = Some "ghp_cached"
  /\ "ghp_cached" <> EmptyString
  /\ fst (@lambda_handler svc_rotated VNone VNone warm_world)
     = Raise (RuntimeError "GitHub API error 401: Bad credentials")
  /\ secrets_calls (snd (@lambda_handler svc_rotated VNone VNone warm_world))
     = secrets_calls warm_world
  /\ _cached_secret (snd (@lambda_handler svc_rotated VNone VNone warm_world))
     = Some "ghp_cached".
Proof.
  assert (N : "ghp_cached" <> EmptyString) by discriminate.
  split; [reflexivity |]. split; [exact N |]. split; [reflexivity |].
  destruct (@warm_cache_is_reused svc_rotated VNone VNone warm_world
              "chrism202" "site-bucket" "arn:github-token" 2%Z "ghp_cached"
              eq_refl eq_refl eq_refl eq_refl eq_refl N)
    as (S1 & S2 & _).
  split; [exact S1 | exact S2].
Defined.

Lemma empty_listing_is_stored_witness :
  @_load_token svc_no_repos "arn:github-token" initial_world
  = (Ok "ghp_plain",
     snd (@_load_token svc_no_repos "arn:github-token" initial_world))
  /\ fst (@lambda_handler svc_no_repos VNone VNone initial_world)
     = Ok (VDict [ ("status", VStr "ok"); ("bucket", VStr "site-bucket");
                   ("key", VStr "projects.json"); ("count", VInt 0) ]).
Proof.
  split; [reflexivity |].
  exact (proj1 (@empty_listing_is_stored svc_no_repos VNone VNone
                  initial_world
                  (snd (@_load_token svc_no_repos "arn:github-token"
                          initial_world))
                  (snd (@_github_request svc_no_repos (api_url "chrism202")
                          "ghp_plain"
                          (snd (@_load_token svc_no_repos "arn:github-token"
                                  initial_world))))
                  "chrism202" "site-bucket" "arn:github-token" "ghp_plain" 2%Z
                  eq_refl eq_refl eq_refl eq_refl eq_refl eq_refl eq_refl)).
Defined.

(* ================================================================== *)
(** ** The single slot of the cache, and what the transformer reads *)

Section CacheMore.
Context {svc : Services}.

(** X17.  A failure is not remembered.  A call that finds the cache empty
    and raises leaves it empty, after asking the backend once; the next
    call, for whatever secret, asks the backend again. *)
Theorem failed_resolution_is_retried
  (arn arn' : string) (w : world) (e : exn) :
  _cached_secret w = None ->
  fst (_load_token arn w) = Raise e ->
  let w1 := snd (_load_token arn w) in
  _cached_secret w1 = None
  /\ secrets_calls w1 = secrets_calls w ++ [arn]
  /\ secrets_calls (snd (_load_token arn' w1))
     = secrets_calls w ++ [arn; arn'].
Proof.
  intros Hc H w1. subst w1.
  rewrite (load_token_miss arn w Hc) in *.
  assert (E := resolve_secret_effect arn w).
  destruct (resolve_secret arn w) as [r w1]. simpl in *. subst r.
  destruct E as (Hs & _ & _ & _ & Hc1 & _). rewrite Hc in Hc1.
  split; [exact Hc1 |]. split; [exact Hs |].
  rewrite (load_token_miss arn' w1 Hc1).
  assert (E := resolve_secret_effect arn' w1).
  destruct (resolve_secret arn' w1) as [r w2]. simpl.
  destruct E as (Hs' & _). rewrite Hs', Hs, <- app_assoc. reflexivity.
Qed.

(** X18.  The cache has one slot and no key.  Once a call has returned a
    token, a call for any other secret identifier returns that same token
    and changes nothing. *)
Theorem cache_ignores_secret_id (arn arn' : string) (w : world) (t : string) :
  _cached_secret w = None ->
  fst (_load_token arn w) = Ok t ->
  _load_token arn' (snd (_load_token arn w))
  = (Ok t, snd (_load_token arn w)).
Proof.
  intros Hc H. rewrite (load_token_miss arn w Hc) in *.
  assert (E := resolve_secret_effect arn w).
  destruct (resolve_secret arn w) as [r w1]. simpl in *. subst r.
  destruct E as (_ & _ & _ & _ & Hc1 & Ht & _).
  now apply load_token_hit.
Qed.

(** The keys of the raw record that [_transform_repo] looks up. *)
Lemma transform_repo_reads (d d' : dict) (w : world) :
  (forall k,
      In k ["pushed_at"; "full_name"; "name"; "description"; "html_url";
            "homepage"; "stargazers_count"; "language"; "topics"] ->
      dict_lookup k d = dict_lookup k d') ->
  _transform_repo (VDict d) w = _transform_repo (VDict d') w.
Proof.
  intros H. rewrite !transform_repo_dict.
  unfold dict_get, dict_get_default.
  rewrite !(H "pushed_at"), !(H "full_name"), !(H "name"),
    !(H "description"), !(H "html_url"), !(H "homepage"),
    !(H "stargazers_count"), !(H "language"), !(H "topics")
    by (simpl; tauto).
  reflexivity.
Qed.

(** X19.  The transformer reads nine fields and nothing else.  Two raw
    records that agree on pushed_at, full_name, name, description,
    html_url, homepage, stargazers_count, language and topics are
    transformed alike, whatever else they hold; and the record made has
    exactly the eleven keys of the public schema, in their order. *)
Theorem transform_reads_nine_fields (d d' : dict) (w : world) :
  ((forall k,
       In k ["pushed_at"; "full_name"; "name"; "description"; "html_url";
             "homepage"; "stargazers_count"; "language"; "topics"] ->
       dict_lookup k d = dict_lookup k d') ->
   _transform_repo (VDict d) w = _transform_repo (VDict d') w)
  /\ exists out,
       fst (_transform_repo (VDict d) w) = Ok (VDict out)
       /\ map fst out
          = ["repo"; "displayName"; "summary"; "description"; "htmlUrl";
             "homepage"; "stars"; "language"; "topics"; "lastPush"; "sync"]
       /\ dict_lookup "summary" out = dict_lookup "description" out.
Proof.
  split; [apply transform_repo_reads |].
  rewrite transform_repo_dict. eexists. split; [reflexivity |].
  split; reflexivity.
Qed.

End CacheMore.

Lemma failed_resolution_is_retried_witness :
  _cached_secret initial_world = None
  /\ fst (@_load_token svc_no_token "arn:github-token" initial_world)
     = Raise (RuntimeError secret_json_no_token_msg)
  /\ secrets_calls
       (snd (@_load_token svc_no_token "arn:other"
               (snd (@_load_token svc_no_token "arn:github-token"
                       initial_world))))
     = secrets_calls initial_world ++ ["arn:github-token"; "arn:other"].
Proof.
  split; [reflexivity |]. split; [vm_compute; reflexivity |].
  exact (proj2 (proj2 (@failed_resolution_is_retried svc_no_token
                         "arn:github-token" "arn:other" initial_world
                         (RuntimeError secret_json_no_token_msg)
                         eq_refl eq_refl))).
Defined.

Lemma cache_ignores_secret_id_witness :
  _cached_secret initial_world = None
  /\ fst (@_load_token svc_plain "arn:github-token" initial_world)
     = Ok "ghp_plain"
  /\ @_load_token svc_plain "arn:other"
       (snd (@_load_token svc_plain "arn:github-token" initial_world))
     = (Ok "ghp_plain",
        snd (@_load_token svc_plain "arn:github-token" initial_world)).
Proof.
  split; [reflexivity |]. split; [reflexivity |].
  exact (@cache_ignores_secret_id svc_plain "arn:github-token" "arn:other"
           initial_world "ghp_plain" eq_refl eq_refl).
Defined.

Lemma defaults_apply_witness :
  @environ svc_defaults "PROJECTS_OBJECT_KEY" = None
  /\ @environ svc_defaults "REPO_LIMIT" = None
  /\ exists count body,
       fst (@lambda_handler svc_defaults VNone VNone initial_world)
       = Ok (VDict [ ("status", VStr "ok");
                     ("bucket", VStr "site-bucket");
                     ("key", VStr "projects.json");
                     ("count", VInt (Z.of_nat count)) ])
       /\ count <= 5
       /\ s3_objects (snd (@lambda_handler svc_defaults VNone VNone
                                           initial_world))
          = s3_objects initial_world
            ++ [mkPut "site-bucket" "projects.json" body "application/json"
                      "no-cache, no-store, must-revalidate"].
Proof.
  split; [reflexivity |]. split; [reflexivity |].
  assert (R : @lambda_handler svc_defaults VNone VNone initial_world
              = (defaults_result, snd (@lambda_handler svc_defaults VNone VNone
                                       initial_world)))
    by (vm_compute; reflexivity).
  destruct (@defaults_apply svc_defaults VNone VNone initial_world _ _
              "chrism202" "site-bucket" "arn:github-token"
              eq_refl eq_refl eq_refl eq_refl eq_refl R)
    as (count & body & Hv & Hc & Hs).
  exists count, body. split; [| split; [exact Hc | exact Hs]].
  rewrite R. simpl. unfold defaults_result. now rewrite <- Hv.
Defined.

(* ================================================================== *)
(** ** [REPO_LIMIT] as [int] reads it *)

Example py_int_refuses_separator :
  py_int (String (ascii_of_nat 28) "5")
  = Raise (ValueError "invalid literal for int() with base 10").
Proof. reflexivity. Qed.

Example py_int_skips_no_break_space :
  py_int (String (ascii_of_nat 160) "5") = Ok 5%Z
  /\ py_int (" 1_000" ++ String (ascii_of_nat 9) EmptyString)%string
     = Ok 1000%Z.
Proof. split; reflexivity. Qed.

Example py_int_digit_limit :
  (exists z, py_int (ones 4300) = Ok z)
  /\ py_int (ones 4301)
     = Raise (ValueError "invalid literal for int() with base 10")
  /\ py_int (String "-" (ones 4301))
     = Raise (ValueError "invalid literal for int() with base 10").
Proof.
  split; [| split; vm_compute; reflexivity].
  destruct (py_int (ones 4300)) as [z | e] eqn:E; [now exists z |].
  vm_compute in E. discriminate.
Qed.

Example bad_limit_run :
  @lambda_handler svc_bad_limit VNone VNone initial_world
  = (Raise (ValueError "invalid literal for int() with base 10"),
     initial_world).
Proof. reflexivity. Qed.
